(** * A shallow embedding of [src/server.cpp]

    The server is a single C++ translation unit.  Its request handling
    ([handleClient] and the helpers it calls) is embedded here as Rocq
    functions over [string]; values of type [std::size_t] and [int] are
    integers in [Z] with the wrap-around of the C++ conversions written out,
    a thrown [std::out_of_range] is an explicit result, and the file system
    the server reads and writes is an explicit state. *)

From Stdlib Require Import ZArith Lia Bool List Ascii String.
From Stdlib Require Import Decimal DecimalString.
Import ListNotations.

Local Open Scope string_scope.
Local Open Scope Z_scope.

(** ** Machine integers *)

Module Cxx.

(** [std::size_t] is a 64-bit unsigned integer, [int] a 32-bit signed one. *)
Definition SIZE_MODULUS : Z := 2 ^ 64.

(** [std::string::npos], the value [find] returns when nothing is found. *)
Definition npos : Z := SIZE_MODULUS - 1.

(** Conversion of an integer value to [std::size_t] (also the result of
    unsigned arithmetic). *)
Definition to_size_t (z : Z) : Z := z mod SIZE_MODULUS.

(** Conversion of an integer value to [int]. *)
Definition to_int (z : Z) : Z := (z + 2 ^ 31) mod 2 ^ 32 - 2 ^ 31.

(** ** Results of operations that may throw *)

(** The only exception the translation unit can raise is the
    [std::out_of_range] of [std::string::substr]; nothing catches it. *)
Inductive result (A : Type) : Type :=
| Ok (a : A)
| OutOfRange.

Arguments Ok {A} a.
Arguments OutOfRange {A}.

Definition bind {A B : Type} (r : result A) (k : A -> result B) : result B :=
  match r with
  | Ok a => k a
  | OutOfRange => OutOfRange
  end.

(** ** The operations of [std::string] the server uses *)

(** [s.size()] *)
Definition size (s : string) : Z := Z.of_nat (String.length s).

(** Whether [m] is written at the very start of [s]. *)
Fixpoint starts_with (m s : string) : bool :=
  match m, s with
  | EmptyString, _ => true
  | String _ _, EmptyString => false
  | String a m', String b s' => Ascii.eqb a b && starts_with m' s'
  end.

(** Position of the first occurrence of [m] in [s], if there is one. *)
Fixpoint first_occurrence (m s : string) : option nat :=
  if starts_with m s then Some O
  else match s with
       | EmptyString => None
       | String _ s' => option_map S (first_occurrence m s')
       end.

(** Whether character [c] is one of the characters of [set]. *)
Fixpoint mem_char (c : ascii) (set : string) : bool :=
  match set with
  | EmptyString => false
  | String d set' => Ascii.eqb c d || mem_char c set'
  end.

(** Position of the first character of [s] that belongs to [set]. *)
Fixpoint first_of (set s : string) : option nat :=
  match s with
  | EmptyString => None
  | String c s' => if mem_char c set then Some O else option_map S (first_of set s')
  end.

(** Position of the last character of [s] that belongs to [set]. *)
Fixpoint last_of (set s : string) : option nat :=
  match s with
  | EmptyString => None
  | String c s' =>
      match last_of set s' with
      | Some k => Some (S k)
      | None => if mem_char c set then Some O else None
      end
  end.

(** A search result as the [std::size_t] the C++ functions return. *)
Definition position (o : option nat) : Z :=
  match o with
  | Some k => Z.of_nat k
  | None => npos
  end.

(** [s.find(m)] *)
Definition find (s m : string) : Z := position (first_occurrence m s).

(** [s.find_first_of(set)] *)
Definition find_first_of (s set : string) : Z := position (first_of set s).

(** [s.find_last_of(set)] *)
Definition find_last_of (s set : string) : Z := position (last_of set s).

(** [s.substr(pos, count)]: throws when [pos > size()], otherwise the
    characters [pos, pos + min(count, size() - pos)). *)
Definition substr (s : string) (pos count : Z) : result string :=
  if size s <? pos then OutOfRange
  else Ok (substring (Z.to_nat pos) (Z.to_nat (Z.min count (size s - pos))) s).

(** [std::to_string] of an unsigned value: its decimal digits. *)
Definition to_string (z : Z) : string :=
  NilZero.string_of_uint (N.to_uint (Z.to_N z)).

End Cxx.

Import Cxx.

Notation "x <- e ;; k" := (bind e (fun x => k))
  (at level 61, e at next level, right associativity).

(** ** Constants (server.cpp, lines 27-34) *)

Definition CR : ascii := "013"%char.
Definition LF : ascii := "010"%char.
Definition NUL : ascii := "000"%char.

Definition CRLF : string := String CR (String LF EmptyString).
Definition HTTP200 : string := "HTTP/1.1 200 OK" ++ CRLF.
Definition HTTP201 : string := "HTTP/1.1 201 Created" ++ CRLF.
Definition HTTP400 : string := "HTTP/1.1 400 Bad Request" ++ CRLF.
Definition HTTP404 : string := "HTTP/1.1 404 Not Found" ++ CRLF.
Definition HTTP414 : string := "HTTP/1.1 414 URI Too Long" ++ CRLF.
Definition HTTP500 : string := "HTTP/1.1 500 Internal Server Error" ++ CRLF.
Definition HTTP501 : string := "HTTP/1.1 501 Not Implemented" ++ CRLF.

(** ** The request parser (server.cpp, lines 312-332) *)

(** [parseBetween]: [pos + i] is computed in [std::size_t], so a marker
    that is not found ([pos = npos]) wraps around to [i - 1]. *)
Definition parseBetween (s firstMarker secondMarker : string) : result string :=
  let i := to_int (size firstMarker) in
  let pos := find s firstMarker in
  suffix <- substr s (to_size_t (pos + i)) npos ;;
  let pos2 := find suffix secondMarker in
  substr s (to_size_t (pos + i)) pos2.

Definition parseFromThisToEnd (s firstMarker : string) : result string :=
  let i := to_int (size firstMarker) in
  let pos := find s firstMarker in
  substr s (to_size_t (pos + i)) (size s).

Definition getPath (requestContents : string) : result string :=
  parseBetween requestContents " /" " ".

Definition getMethod (requestContents : string) : result string :=
  parseBetween requestContents EmptyString " ".

(** ** Response formulation (server.cpp, lines 334-351) *)

Definition formulateEchoResponse (path : string) : result string :=
  let path := "/" ++ path in
  body <- substr path 6 npos ;;
  let response :=
    HTTP200 ++ "Content-Type: text/plain" ++ CRLF
            ++ "Content-Length: " ++ to_string (size body) ++ CRLF in
  let response := response ++ CRLF in
  let response := response ++ body in
  Ok response.

Definition formulateUserAgentResponse (requestContents : string) : result string :=
  body <- parseBetween requestContents (CRLF ++ "User-Agent: ") CRLF ;;
  let response :=
    HTTP200 ++ "Content-Type: text/plain" ++ CRLF
            ++ "Content-Length: " ++ to_string (size body) ++ CRLF in
  let response := response ++ CRLF in
  let response := response ++ body in
  Ok response.

(** ** The file system

    The server opens files for reading ([std::ifstream]), creates a
    directory ([mkdir]) and opens files for writing ([std::ofstream]).  The
    file system is a state: the directories that exist and the regular
    files with their bytes, each under the name of its place.  A place
    below the root is named from the root ([/tmp/d]); a place below the
    working directory is named from there ([static/data.json], and the
    empty name for the working directory itself); the directories above
    the working directory are [..], [../..] and so on.  Where the working
    directory lies below the root is not part of the state.

    A path is resolved as POSIX resolves it: component by component,
    through directories that exist; an empty component and [.] stay in
    place, [..] goes to the parent.  In a state that describes a file
    system every file and every directory listed lies in a directory that
    exists; [mkdir] and the output stream keep it so.  Permissions are not
    modelled: the server is taken to have access to every directory and
    file of the state.  Links and special files are not modelled
    either. *)

Record filesystem : Type := mkFilesystem {
  directories : list string;
  files : list (string * string)
}.

Definition is_slash (c : ascii) : bool := Ascii.eqb c "/"%char.

(** The components of a path: what stands between its slashes.  A path
    that starts or ends with a slash, or holds a run of slashes, has empty
    components. *)
Fixpoint components (p : string) : list string :=
  match p with
  | EmptyString => [EmptyString]
  | String a p' =>
      if is_slash a then EmptyString :: components p'
      else match components p' with
           | [] => [String a EmptyString]
           | c :: cs => String a c :: cs
           end
  end.

(** The name of the entry [c] of the directory named [d]. *)
Definition child (d c : string) : string :=
  if String.eqb d EmptyString then c
  else if String.eqb d "/" then d ++ c
  else d ++ "/" ++ c.

(** What precedes the last slash of a name; the root for a slash in first
    position; the working directory when the name has no slash. *)
Definition parent (q : string) : string :=
  match last_of "/" q with
  | None => EmptyString
  | Some O => "/"
  | Some k => substring 0 k q
  end.

(** The names [..], [../..], ... of the directories above the working
    directory. *)
Definition above (q : string) : bool := forallb (String.eqb "..") (components q).

(** The directory that [..] names in the directory named [d]: the root is
    its own parent. *)
Definition up (d : string) : string :=
  if String.eqb d "/" then d
  else if String.eqb d EmptyString || above d then child d ".."
  else parent d.

(** The root, the working directory and the directories above it always
    exist. *)
Definition directory_exists (fs : filesystem) (q : string) : bool :=
  String.eqb q EmptyString || String.eqb q "/" || above q
  || existsb (String.eqb q) (directories fs).

Fixpoint lookup (q : string) (l : list (string * string)) : option string :=
  match l with
  | [] => None
  | (k, v) :: l' => if String.eqb q k then Some v else lookup q l'
  end.

(** What a path leads to: a directory, a regular file, or a name that is
    free in a directory that exists. *)
Inductive place : Type :=
| Directory (q : string)
| Regular (q : string)
| Absent (q : string).

(** Resolution of the components [cs] from the directory named [here].
    Every component but the last has to name a directory (ENOENT and
    ENOTDIR otherwise); so has the last one when an empty component or a
    dot follows it. *)
Fixpoint walk (fs : filesystem) (here : string) (cs : list string) : option place :=
  match cs with
  | [] => Some (Directory here)
  | c :: cs' =>
      if String.eqb c EmptyString || String.eqb c "." then walk fs here cs'
      else if String.eqb c ".." then walk fs (up here) cs'
      else
        let q := child here c in
        if directory_exists fs q then walk fs q cs'
        else
          match cs' with
          | [] =>
              match lookup q (files fs) with
              | Some _ => Some (Regular q)
              | None => Some (Absent q)
              end
          | _ :: _ => None
          end
  end.

(** The place a path names.  The empty path names nothing (ENOENT); a path
    that starts with a slash is resolved from the root, any other from the
    working directory. *)
Definition locate (fs : filesystem) (p : string) : option place :=
  match p with
  | EmptyString => None
  | String a _ =>
      walk fs (if is_slash a then "/" else EmptyString) (components p)
  end.

(** What an input stream opened on a path delivers: the bytes of a regular
    file, and nothing for a directory (the stream opens, its first read
    fails).  [None] when the path cannot be opened. *)
Definition read_file (fs : filesystem) (p : string) : option string :=
  match locate fs p with
  | Some (Regular q) => lookup q (files fs)
  | Some (Directory _) => Some EmptyString
  | _ => None
  end.

(** A path without its trailing slashes, which [mkdir] ignores. *)
Fixpoint strip_slashes (p : string) : string :=
  match p with
  | EmptyString => EmptyString
  | String a p' =>
      match strip_slashes p' with
      | EmptyString => if is_slash a then EmptyString else String a EmptyString
      | q => String a q
      end
  end.

(** [mkdir(d, 0777)]; the server ignores its return value.  A directory is
    created where the name is free in a directory that exists. *)
Definition mkdir (fs : filesystem) (d : string) : filesystem :=
  match locate fs (strip_slashes d) with
  | Some (Absent q) => mkFilesystem (q :: directories fs) (files fs)
  | _ => fs
  end.

(** Whether a path can be opened for writing: it names a regular file, or
    a name that is free in a directory that exists. *)
Definition can_create (fs : filesystem) (p : string) : bool :=
  match locate fs p with
  | Some (Regular _) | Some (Absent _) => true
  | _ => false
  end.

(** The file a path names now holds [bytes]. *)
Definition write_file (fs : filesystem) (p bytes : string) : filesystem :=
  match locate fs p with
  | Some (Regular q) | Some (Absent q) =>
      mkFilesystem (directories fs) ((q, bytes) :: files fs)
  | _ => fs
  end.

(** *** Input streams *)

(** An open [std::ifstream]: the bytes not read yet, and whether no state
    bit (eof, fail, bad) is set. *)
Record ifstream : Type := mkIfstream {
  unread : string;
  good : bool
}.

(** [std::ifstream file(path)].  The stream is good when the path could
    be opened.  That holds of a directory too: the first read from it
    fails and delivers nothing, which leaves the stream as the first read
    from an empty file does, no longer good and with an empty line. *)
Definition ifstream_open (fs : filesystem) (path : string) : ifstream :=
  match read_file fs path with
  | Some bytes => mkIfstream bytes true
  | None => mkIfstream EmptyString false
  end.

(** The characters [std::getline] extracts: up to a newline, which is
    consumed and not stored, or up to the end of the file.  The boolean
    tells whether the end of the file was hit. *)
Fixpoint extract_line (unread : string) : string * string * bool :=
  match unread with
  | EmptyString => (EmptyString, EmptyString, true)
  | String c rest =>
      if Ascii.eqb c LF then (EmptyString, rest, false)
      else let '(line, rest', eof) := extract_line rest in
           (String c line, rest', eof)
  end.

(** [std::getline(file, line)] on a good stream: [line] is replaced by the
    extracted characters; hitting the end of the file sets eofbit (and
    failbit when nothing was extracted), so the stream is no longer good. *)
Definition getline (file : ifstream) : ifstream * string :=
  let '(line, rest, eof) := extract_line (unread file) in
  (mkIfstream rest (negb eof), line).

(** [std::ofstream file(path)]: the file is created or truncated. *)
Definition ofstream_open (fs : filesystem) (path : string) : option filesystem :=
  if can_create fs path then Some (write_file fs path EmptyString) else None.

(** ** Serving files (server.cpp, lines 364-409) *)

Definition isValidFilePath (fs : filesystem) (path : string) : bool :=
  let index := to_int (find_first_of path "/") in
  if to_size_t index >? size path then false
  else
    let file := ifstream_open fs path in
    if good file then true
    else false.

(** The loop [while (file.good()) { getline; contents += line; contents += "\n"; }]
    of [fetchFileContents], run for at most [fuel] iterations. *)
Fixpoint read_lines (fuel : nat) (file : ifstream) (contents : string)
  : ifstream * string :=
  match fuel with
  | O => (file, contents)
  | S fuel' =>
      if good file then
        let '(file', line) := getline file in
        let contents := contents ++ line in
        let contents := contents ++ String LF EmptyString in
        read_lines fuel' file' contents
      else (file, contents)
  end.

(** Every iteration but the last consumes a byte, so one more iteration
    than the file has bytes is enough (see [read_lines_exits]). *)
Definition fetchFileContents (fs : filesystem) (path contentType : string)
  : result string :=
  let file := ifstream_open fs path in
  let contents := EmptyString in
  let '(_, contents) := read_lines (S (String.length (unread file))) file contents in
  contents <- substr contents 0 (to_size_t (size contents - 1)) ;;
  let response :=
    HTTP200 ++ "Content-Type: " ++ contentType ++ CRLF
            ++ "Content-Length: " ++ to_string (size contents) ++ CRLF in
  let response := response ++ CRLF in
  let response := response ++ contents in
  Ok response.

Definition codeCraftersGetFile (fs : filesystem) (path directory : string)
  : result string :=
  actualPath <- substr path 6 (size path) ;;
  let actualPath := directory ++ actualPath in
  if negb (isValidFilePath fs actualPath) then Ok (HTTP404 ++ CRLF)
  else fetchFileContents fs actualPath "application/octet-stream".

(** ** Storing files (server.cpp, lines 412-429) *)

Definition storeFile (fs : filesystem) (path directory requestContents : string)
  : result (bool * filesystem) :=
  path <- substr path 6 (size path) ;;
  let path :=
    if String.eqb directory EmptyString then directory ++ path
    else directory ++ "/" ++ path in
  let fs := mkdir fs directory in
  match ofstream_open fs path with
  | None => Ok (false, fs)
  | Some fs =>
      requestContents <- parseFromThisToEnd requestContents (CRLF ++ CRLF) ;;
      Ok (true, write_file fs path requestContents)
  end.

(** ** Content types (server.cpp, lines 431-478) *)

Definition getFileExtension (validPath : string) : result string :=
  let found := find_last_of validPath "/" in
  file <- substr validPath (to_size_t (found + 1)) npos ;;
  let found2 := find_last_of file "." in
  if found2 =? to_size_t (-1) then Ok EmptyString
  else substr file (to_size_t (found2 + 1)) npos.

Definition defaultContentType (fileExtension : string) : string :=
  if String.eqb fileExtension "bmp" then "image/bmp"
  else if String.eqb fileExtension "css" then "text/css"
  else if String.eqb fileExtension "csv" then "text/csv"
  else if String.eqb fileExtension "gif" then "image/gif"
  else if String.eqb fileExtension "htm" || String.eqb fileExtension "html" then "text/html"
  else if String.eqb fileExtension "ico" then "image/vnd.microsoft.icon"
  else if String.eqb fileExtension "jpg" || String.eqb fileExtension "jpeg" then "image/jpeg"
  else if String.eqb fileExtension "js" then "text/javascript"
  else if String.eqb fileExtension "json" then "application/json"
  else if String.eqb fileExtension "png" then "image/png"
  else if String.eqb fileExtension "pdf" then "application/pdf"
  else if String.eqb fileExtension "php" then "application/x-httpd-php"
  else if String.eqb fileExtension "svg" then "image/svg+xml"
  else if String.eqb fileExtension "tif" || String.eqb fileExtension "tiff" then "image/tiff"
  else if String.eqb fileExtension "txt" then "text/plain"
  else "application/octet-stream".

(** ** Handling one connection (server.cpp, lines 205-305) *)

(** [buffer.size()] of the [std::array<char, 1024>] the request is
    received into. *)
Definition BUFFER_SIZE : Z := 1024.

Fixpoint repeat_char (c : ascii) (n : nat) : string :=
  match n with
  | O => EmptyString
  | S n' => String c (repeat_char c n')
  end.

(** [std::array<char, 1024> buffer = { '\0' }] *)
Definition buffer_init : string := repeat_char NUL (Z.to_nat BUFFER_SIZE).

(** The buffer after [recv] stored the bytes [received] at its start;
    [recv] is given the length of the buffer and stores no more. *)
Fixpoint recv_into (buffer received : string) : string :=
  match buffer, received with
  | String _ buffer', String c received' => String c (recv_into buffer' received')
  | _, _ => buffer
  end.

(** The C string that starts at [buffer.data()]: the characters before the
    first NUL.  A buffer that holds no NUL makes the [std::string]
    constructor read past the array, which has no defined behaviour. *)
Fixpoint c_string (buffer : string) : option string :=
  match buffer with
  | EmptyString => None
  | String c buffer' =>
      if Ascii.eqb c NUL then Some EmptyString
      else option_map (String c) (c_string buffer')
  end.

(** What a connection ends in. *)
Inductive outcome : Type :=
| Sent (response : string) (fs : filesystem)
    (** [send] was given [response]; the socket was closed *)
| ClosedWithoutResponse
    (** [recv] failed; the socket was closed *)
| Terminated
    (** a [std::out_of_range] left the thread: [std::terminate] *)
| BufferOverread.
    (** the request was read past the end of the buffer *)

(** [handleClient], given what [recv] returned ([bytes_received]) and the
    bytes it stored ([received]). *)
Definition handleClient (bytes_received : Z) (received : string)
    (directory : string) (fs : filesystem) : outcome :=
  let response := EmptyString in
  let buffer := recv_into buffer_init received in
  if bytes_received <? 0 then ClosedWithoutResponse
  else
    let response :=
      if to_size_t bytes_received >? BUFFER_SIZE then HTTP414 ++ CRLF
      else response in
    match c_string buffer with
    | None => BufferOverread
    | Some requestContents =>
        let handled :=
          path <- getPath requestContents ;;
          method <- getMethod requestContents ;;
          if negb (String.eqb response EmptyString) then Ok (response, fs)
          else if String.eqb method "GET" then
            if String.eqb path EmptyString then Ok (HTTP200 ++ CRLF, fs)
            else
              prefix5 <- substr path 0 5 ;;
              if String.eqb prefix5 "echo/" then
                response <- formulateEchoResponse path ;;
                Ok (response, fs)
              else
                prefix10 <- substr path 0 10 ;;
                if String.eqb prefix10 "user-agent" then
                  response <- formulateUserAgentResponse requestContents ;;
                  Ok (response, fs)
                else
                  prefix6 <- substr path 0 6 ;;
                  if String.eqb prefix6 "files/" then
                    response <- codeCraftersGetFile fs path directory ;;
                    Ok (response, fs)
                  else if isValidFilePath fs path then
                    extension <- getFileExtension path ;;
                    response <- fetchFileContents fs path (defaultContentType extension) ;;
                    Ok (response, fs)
                  else Ok (HTTP404 ++ CRLF, fs)
          else if String.eqb method "POST" then
            prefix6 <- substr path 0 6 ;;
            if String.eqb prefix6 "files/" then
              stored <- storeFile fs path directory requestContents ;;
              let '(saved, fs) := stored in
              if negb saved then Ok (HTTP500 ++ CRLF, fs)
              else Ok (HTTP201 ++ CRLF, fs)
            else Ok (HTTP501 ++ CRLF, fs)
          else Ok (response, fs) in
        match handled with
        | Ok (response, fs) => Sent response fs
        | OutOfRange => Terminated
        end
    end.

(** ** The content-type resolver in the words of the specification

    The specification describes the extension as the substring after the
    last dot of the last path segment, empty when that segment has no dot,
    and the content type as a lookup in a fixed table with a default.
    These definitions follow that description, for comparison with
    [getFileExtension] and [defaultContentType]. *)

(** The pieces of [s] between the occurrences of [c]. *)
Fixpoint split_on (c : ascii) (s : string) : list string :=
  match s with
  | EmptyString => [EmptyString]
  | String a s' =>
      if Ascii.eqb a c then EmptyString :: split_on c s'
      else match split_on c s' with
           | piece :: pieces => String a piece :: pieces
           | [] => [String a EmptyString]
           end
  end.

Fixpoint contains_char (c : ascii) (s : string) : bool :=
  match s with
  | EmptyString => false
  | String a s' => Ascii.eqb a c || contains_char c s'
  end.

Definition last_segment (path : string) : string :=
  last (split_on "/" path) EmptyString.

Definition spec_extension (path : string) : string :=
  let segment := last_segment path in
  if contains_char "." segment then last (split_on "." segment) EmptyString
  else EmptyString.

Definition content_type_table : list (string * string) :=
  [ ("bmp", "image/bmp"); ("css", "text/css"); ("csv", "text/csv");
    ("gif", "image/gif"); ("htm", "text/html"); ("html", "text/html");
    ("ico", "image/vnd.microsoft.icon"); ("jpg", "image/jpeg");
    ("jpeg", "image/jpeg"); ("js", "text/javascript");
    ("json", "application/json"); ("png", "image/png");
    ("pdf", "application/pdf"); ("php", "application/x-httpd-php");
    ("svg", "image/svg+xml"); ("tif", "image/tiff"); ("tiff", "image/tiff");
    ("txt", "text/plain") ].

Definition spec_content_type (extension : string) : string :=
  match lookup extension content_type_table with
  | Some type => type
  | None => "application/octet-stream"
  end.

(** ** Notions the properties are stated with *)

(** [m] is written somewhere in [s]. *)
Definition occurs (m s : string) : Prop := exists a b, s = a ++ m ++ b.

(** [m] is written in [s] between [a] and [b], and nowhere earlier: [a]
    is what precedes the first occurrence of [m], and [b] what follows
    it. *)
Definition first_at (m s a b : string) : Prop :=
  s = a ++ m ++ b
  /\ forall a' b', s = a' ++ m ++ b' -> (String.length a <= String.length a')%nat.

(** The path [storeFile] opens for [files/<name>] (server.cpp, lines
    414-418). *)
Definition destination (directory name : string) : string :=
  if String.eqb directory EmptyString then directory ++ name
  else directory ++ "/" ++ name.

(** ** Sample requests and file systems *)

(** A request line, the protocol version, a blank line and a body. *)
Definition request (request_line body : string) : string :=
  request_line ++ " HTTP/1.1" ++ CRLF ++ CRLF ++ body.

(** Only [/tmp] exists. *)
Definition fs_tmp : filesystem := mkFilesystem ["/tmp"] [].

(** [/tmp/d] holds the two-line file [notes.txt]. *)
Definition notes : string :=
  "line one" ++ String LF EmptyString ++ "line two" ++ String LF EmptyString.

Definition fs_served : filesystem :=
  mkFilesystem ["/tmp/d"; "/tmp"] [("/tmp/d/notes.txt", notes)].

(** [/tmp/d] is empty, and the file [dx] lies beside it in [/tmp]. *)
Definition fs_beside : filesystem :=
  mkFilesystem ["/tmp/d"; "/tmp"] [("/tmp/dx", "other")].

(** The working directory holds the file [a.txt]. *)
Definition fs_cwd : filesystem := mkFilesystem [] [("a.txt", "hi")].

(** The working directory holds [static/data.json]. *)
Definition fs_static : filesystem :=
  mkFilesystem ["static"] [("static/data.json", "{}")].

(** A GET request of 1114 bytes, more than the buffer holds. *)
Definition oversized_request : string :=
  request ("GET /" ++ repeat_char "a" 1096) EmptyString.

(** ** The responses of the dispatch *)

(** The responses the dispatch can formulate when the 414 test on line
    233 is negative: nothing at all, a 200 with or without headers and
    body, or one of four bare status lines. *)
Inductive dispatched : string -> Prop :=
| dispatched_nothing : dispatched EmptyString
| dispatched_200 (rest : string) : dispatched (HTTP200 ++ rest)
| dispatched_201 : dispatched (HTTP201 ++ CRLF)
| dispatched_404 : dispatched (HTTP404 ++ CRLF)
| dispatched_500 : dispatched (HTTP500 ++ CRLF)
| dispatched_501 : dispatched (HTTP501 ++ CRLF).

(** ** Proof support *)

(** Unfolds [handleClient] on a request that was received within the
    buffer and whose path and method are known, up to the dispatch on the
    method. *)
Ltac enter_dispatch Hn Hreq Hpath Hmethod :=
  unfold handleClient; cbv zeta;
  let E := fresh "E" in
  destruct (_ <? 0) eqn:E; [apply Z.ltb_lt in E; lia | clear E];
  unfold to_size_t;
  rewrite Z.mod_small by (unfold BUFFER_SIZE, SIZE_MODULUS in *; lia);
  destruct (_ >? BUFFER_SIZE) eqn:E;
    [apply Z.gtb_lt in E; unfold BUFFER_SIZE in *; lia | clear E];
  rewrite Hreq, Hpath; cbn [bind]; rewrite Hmethod; cbn [bind];
  change (negb (String.eqb EmptyString EmptyString)) with false; cbv iota.

(** * Properties *)

(** ** Strings *)

Section StringFacts.

Lemma append_assoc (a b c : string) : (a ++ b) ++ c = a ++ (b ++ c).
Proof. induction a as [|x a IH]; simpl; [reflexivity | now rewrite IH]. Qed.

Lemma length_append (a b : string) :
  String.length (a ++ b) = (String.length a + String.length b)%nat.
Proof. induction a as [|x a IH]; simpl; [reflexivity | now rewrite IH]. Qed.

Lemma size_append (a b : string) : size (a ++ b) = size a + size b.
Proof. unfold size. rewrite length_append. lia. Qed.

Lemma size_nonneg (s : string) : 0 <= size s.
Proof. unfold size. lia. Qed.

Lemma size_String (c : ascii) (s : string) : size (String c s) = 1 + size s.
Proof. unfold size. simpl String.length. lia. Qed.

(** [substring] past the end of the string returns what there is. *)
Lemma substring_whole (s : string) (n : nat) :
  (String.length s <= n)%nat -> substring 0 n s = s.
Proof.
  revert n. induction s as [|c s IH]; intros [|n] H; simpl in *;
    try reflexivity; try lia.
  f_equal. apply IH. lia.
Qed.

Lemma substring_skip (a b : string) (k n : nat) :
  substring (String.length a + k) n (a ++ b) = substring k n b.
Proof. induction a as [|x a IH]; simpl; [reflexivity | exact IH]. Qed.

Lemma substring_prefix (a b : string) (n : nat) :
  (n <= String.length a)%nat -> substring 0 n (a ++ b) = substring 0 n a.
Proof.
  revert n. induction a as [|x a IH]; intros [|n] H; simpl in *;
    try reflexivity; try lia.
  - now destruct b.
  - f_equal. apply IH. lia.
Qed.

Lemma substring_zero (s : string) (k : nat) : substring k 0 s = EmptyString.
Proof.
  revert k. induction s as [|c s IH]; intros [|k]; simpl; try reflexivity.
  apply IH.
Qed.

Lemma length_substring_le (s : string) (k n : nat) :
  (String.length (substring k n s) <= String.length s)%nat.
Proof.
  revert k n. induction s as [|c s IH]; intros [|k] [|n]; simpl; try lia.
  - specialize (IH O n). lia.
  - specialize (IH k O). lia.
  - specialize (IH k (S n)). lia.
Qed.

(** [substr] from a position inside the string to its end. *)
Lemma substr_to_end (a b : string) (count : Z) :
  size b <= count -> substr (a ++ b) (size a) count = Ok b.
Proof.
  intros H. unfold substr.
  pose proof (size_nonneg a). pose proof (size_nonneg b).
  rewrite size_append.
  destruct (size a + size b <? size a) eqn:E; [apply Z.ltb_lt in E; lia|].
  f_equal.
  replace (Z.to_nat (size a)) with (String.length a + 0)%nat by (unfold size; lia).
  rewrite substring_skip. apply substring_whole. unfold size in *. lia.
Qed.

(** [substr] of the first [n] characters. *)
Lemma substr_start (a b : string) :
  substr (a ++ b) 0 (size a) = Ok a.
Proof.
  unfold substr. pose proof (size_nonneg (a ++ b)).
  destruct (size (a ++ b) <? 0) eqn:E; [apply Z.ltb_lt in E; lia|].
  f_equal. rewrite size_append. pose proof (size_nonneg b).
  replace (Z.to_nat (Z.min (size a) (size a + size b - 0)))
    with (String.length a) by (unfold size in *; lia).
  simpl Z.to_nat. rewrite substring_prefix by lia.
  apply substring_whole. lia.
Qed.

(** [substr] from position 0 never throws. *)
Lemma substr_zero_ok (s : string) (count : Z) :
  exists r, substr s 0 count = Ok r.
Proof.
  unfold substr. pose proof (size_nonneg s).
  destruct (size s <? 0) eqn:E; [apply Z.ltb_lt in E; lia|]. eauto.
Qed.

Lemma starts_with_app (m b : string) : starts_with m (m ++ b) = true.
Proof.
  induction m as [|c m IH]; simpl; [reflexivity|].
  now rewrite Ascii.eqb_refl, IH.
Qed.

Lemma first_occurrence_prefix (m s : string) :
  starts_with m s = true -> first_occurrence m s = Some O.
Proof. intros H. destruct s; simpl; now rewrite H. Qed.

Lemma to_size_t_small (z : Z) : 0 <= z < SIZE_MODULUS -> to_size_t z = z.
Proof. intros H. unfold to_size_t. now apply Z.mod_small. Qed.

Lemma to_int_small (z : Z) : 0 <= z < 2 ^ 31 -> to_int z = z.
Proof.
  intros H. unfold to_int. rewrite Z.mod_small; lia.
Qed.

End StringFacts.

(** ** The received request *)

Section Request.

Lemma length_repeat_char (c : ascii) (n : nat) : String.length (repeat_char c n) = n.
Proof. induction n as [|n IH]; simpl; [reflexivity | now rewrite IH]. Qed.

Lemma length_recv_into (buffer received : string) :
  String.length (recv_into buffer received) = String.length buffer.
Proof.
  revert received. induction buffer as [|b buffer IH]; intros [|c received];
    simpl; try reflexivity.
  now rewrite IH.
Qed.

Lemma c_string_shorter (buffer s : string) :
  c_string buffer = Some s -> (String.length s < String.length buffer)%nat.
Proof.
  revert s. induction buffer as [|b buffer IH]; intros s H; simpl in H.
  - discriminate.
  - destruct (Ascii.eqb b NUL).
    + injection H as <-. simpl. lia.
    + destruct (c_string buffer) as [t|]; [|discriminate].
      injection H as <-. specialize (IH t eq_refl). simpl. lia.
Qed.

(** The request the server parses is shorter than the buffer. *)
Lemma request_size (received requestContents : string) :
  c_string (recv_into buffer_init received) = Some requestContents ->
  size requestContents < BUFFER_SIZE.
Proof.
  intros H. apply c_string_shorter in H.
  rewrite length_recv_into in H. unfold buffer_init in H.
  rewrite length_repeat_char in H. unfold size, BUFFER_SIZE in *. lia.
Qed.

Lemma substr_size_le (s r : string) (pos count : Z) :
  substr s pos count = Ok r -> size r <= size s.
Proof.
  unfold substr. destruct (size s <? pos); [discriminate|].
  intros H. injection H as <-. unfold size.
  pose proof (length_substring_le s (Z.to_nat pos)
                (Z.to_nat (Z.min count (Z.of_nat (String.length s) - pos)))).
  lia.
Qed.

Lemma parseBetween_size_le (s m1 m2 r : string) :
  parseBetween s m1 m2 = Ok r -> size r <= size s.
Proof.
  unfold parseBetween.
  destruct (substr s (to_size_t (find s m1 + to_int (size m1))) npos); simpl.
  - apply substr_size_le.
  - discriminate.
Qed.

(** A request without NUL that is shorter than the buffer is read back
    from the buffer as it was received. *)
Lemma c_string_received (n : nat) (s : string) :
  contains_char NUL s = false -> (String.length s < n)%nat ->
  c_string (recv_into (repeat_char NUL n) s) = Some s.
Proof.
  revert n. induction s as [|c s IH]; intros [|n] Hnul Hlen; simpl in Hlen; try lia.
  - reflexivity.
  - simpl in Hnul. apply orb_false_iff in Hnul. destruct Hnul as [Hc Hs].
    simpl. rewrite Hc. rewrite IH by (assumption || lia). reflexivity.
Qed.

Lemma request_received (s : string) :
  contains_char NUL s = false -> size s < BUFFER_SIZE ->
  c_string (recv_into buffer_init s) = Some s.
Proof.
  intros Hnul Hsize. apply c_string_received; [exact Hnul|].
  unfold size, BUFFER_SIZE in *. lia.
Qed.

(** A marker whose first character does not occur before it is found
    where it stands. *)
Lemma first_occurrence_here (c : ascii) (m a b : string) :
  contains_char c a = false ->
  first_occurrence (String c m) (a ++ String c m ++ b) = Some (String.length a).
Proof.
  intros Ha. induction a as [|d a IH].
  - apply first_occurrence_prefix. apply (starts_with_app (String c m) b).
  - simpl in Ha. apply orb_false_iff in Ha. destruct Ha as [Hd Ha].
    change (first_occurrence (String c m) (String d a ++ String c m ++ b))
      with (if Ascii.eqb c d && starts_with m (a ++ String c m ++ b) then Some O
            else option_map S (first_occurrence (String c m) (a ++ String c m ++ b))).
    rewrite Ascii.eqb_sym, Hd, (IH Ha). reflexivity.
Qed.

(** [substr] of a part in the middle. *)
Lemma substr_middle (a b c : string) :
  size a < SIZE_MODULUS ->
  substr (a ++ b ++ c) (size a) (size b) = Ok b.
Proof.
  intros Ha. unfold substr. rewrite !size_append.
  pose proof (size_nonneg a). pose proof (size_nonneg b). pose proof (size_nonneg c).
  destruct (size a + (size b + size c) <? size a) eqn:E;
    [apply Z.ltb_lt in E; lia|].
  f_equal.
  replace (Z.to_nat (size a)) with (String.length a + 0)%nat by (unfold size; lia).
  rewrite substring_skip.
  replace (Z.to_nat (Z.min (size b) (size a + (size b + size c) - size a)))
    with (String.length b) by (unfold size in *; lia).
  rewrite substring_prefix by lia. apply substring_whole. lia.
Qed.

(** The request line [<method> /<path> <rest>], neither [<method>] nor
    [<path>] holding a space, is parsed into its method and its path. *)
Lemma parse_request_line (method path rest : string) :
  contains_char " " method = false ->
  contains_char " " path = false ->
  size (method ++ " /" ++ path ++ " " ++ rest) < BUFFER_SIZE ->
  getMethod (method ++ " /" ++ path ++ " " ++ rest) = Ok method
  /\ getPath (method ++ " /" ++ path ++ " " ++ rest) = Ok path.
Proof.
  intros Hm Hp Hsize.
  set (s := method ++ " /" ++ path ++ " " ++ rest) in *.
  pose proof (size_nonneg method) as H0. pose proof (size_nonneg path) as H1.
  pose proof (size_nonneg rest) as H2.
  assert (Hs : size s = size method + 2 + size path + 1 + size rest).
  { unfold s. rewrite !size_append.
    change (size " /") with 2. change (size " ") with 1. lia. }
  split.
  - unfold getMethod, parseBetween. cbv zeta.
    assert (Hfind : find s EmptyString = 0) by (unfold find, s; now destruct method).
    rewrite Hfind. change (to_size_t (0 + to_int (size EmptyString))) with (size EmptyString).
    change s with (EmptyString ++ s) at 1.
    rewrite substr_to_end by (unfold BUFFER_SIZE, npos, SIZE_MODULUS in *; lia).
    cbn [bind]. unfold find, s.
    change (" /" ++ path ++ " " ++ rest) with (" " ++ "/" ++ path ++ " " ++ rest).
    rewrite (first_occurrence_here " " EmptyString method _ Hm).
    unfold position. change (size EmptyString) with 0.
    change (Z.of_nat (String.length method)) with (size method).
    apply substr_start.
  - unfold getPath, parseBetween. cbv zeta.
    assert (Hfind : find s " /" = size method).
    { unfold find, s. now rewrite (first_occurrence_here " " "/" method _ Hm). }
    rewrite Hfind. change (to_int (size " /")) with (size " /").
    rewrite to_size_t_small
      by (change (size " /") with 2; unfold BUFFER_SIZE, SIZE_MODULUS in *; lia).
    rewrite <- size_append.
    assert (Hsplit : s = (method ++ " /") ++ path ++ " " ++ rest)
      by (unfold s; now rewrite append_assoc).
    rewrite Hsplit at 1.
    rewrite substr_to_end
      by (rewrite !size_append; change (size " ") with 1;
          unfold BUFFER_SIZE, npos, SIZE_MODULUS in *; lia).
    cbn [bind]. unfold find.
    rewrite (first_occurrence_here " " EmptyString path rest Hp).
    unfold position. change (Z.of_nat (String.length path)) with (size path).
    rewrite Hsplit. apply substr_middle.
    rewrite size_append. change (size " /") with 2.
    unfold BUFFER_SIZE, SIZE_MODULUS in *. lia.
Qed.

End Request.

(** ** Echo *)

Section Echo.

Lemma formulateEchoResponse_echo (text : string) :
  size text < SIZE_MODULUS ->
  formulateEchoResponse ("echo/" ++ text) =
    Ok (HTTP200 ++ "Content-Type: text/plain" ++ CRLF
          ++ "Content-Length: " ++ to_string (size text) ++ CRLF
          ++ CRLF ++ text).
Proof.
  intros H. unfold formulateEchoResponse. cbv zeta.
  change ("/" ++ "echo/" ++ text) with ("/echo/" ++ text).
  change 6 with (size "/echo/").
  rewrite substr_to_end by (unfold npos; lia).
  cbn [bind]. f_equal.
  now rewrite !append_assoc.
Qed.

End Echo.

(** C3.  For every GET request whose parsed path is [echo/<text>], the
    response is status line 200, [Content-Type: text/plain],
    [Content-Length] with the decimal byte length of [<text>], a blank
    line, and the body [<text>] itself, byte for byte (nothing is
    decoded). *)
Theorem echo_response :
  forall (bytes_received : Z) (received directory : string) (fs : filesystem)
         (requestContents text : string),
    0 <= bytes_received <= BUFFER_SIZE ->
    c_string (recv_into buffer_init received) = Some requestContents ->
    getMethod requestContents = Ok "GET" ->
    getPath requestContents = Ok ("echo/" ++ text) ->
    handleClient bytes_received received directory fs =
      Sent (HTTP200 ++ "Content-Type: text/plain" ++ CRLF
              ++ "Content-Length: " ++ to_string (size text) ++ CRLF
              ++ CRLF ++ text) fs.
Proof.
  intros n received directory fs s text Hn Hreq Hmethod Hpath.
  assert (Hsize : size text < SIZE_MODULUS).
  { pose proof (request_size _ _ Hreq) as Hs.
    pose proof (parseBetween_size_le _ _ _ _ Hpath) as Hp.
    rewrite size_append in Hp. pose proof (size_nonneg "echo/").
    unfold BUFFER_SIZE, SIZE_MODULUS in *. lia. }
  enter_dispatch Hn Hreq Hpath Hmethod.
  change (String.eqb "GET" "GET") with true. cbv iota.
  change (String.eqb ("echo/" ++ text) EmptyString) with false. cbv iota.
  change 5 with (size "echo/"). rewrite substr_start. cbn [bind].
  change (String.eqb "echo/" "echo/") with true. cbv iota.
  rewrite formulateEchoResponse_echo by exact Hsize.
  reflexivity.
Qed.

(** The concrete scenario of C3: [GET /echo/abc HTTP/1.1], blank line. *)
Lemma echo_response_witness :
  handleClient 26 ("GET /echo/abc HTTP/1.1" ++ CRLF ++ CRLF) EmptyString
               (mkFilesystem [] []) =
    Sent ("HTTP/1.1 200 OK" ++ CRLF ++ "Content-Type: text/plain" ++ CRLF
            ++ "Content-Length: 3" ++ CRLF ++ CRLF ++ "abc")
         (mkFilesystem [] []).
Proof.
  apply (echo_response 26 ("GET /echo/abc HTTP/1.1" ++ CRLF ++ CRLF) EmptyString
           (mkFilesystem [] []) ("GET /echo/abc HTTP/1.1" ++ CRLF ++ CRLF) "abc").
  - unfold BUFFER_SIZE. lia.
  - vm_compute. reflexivity.
  - vm_compute. reflexivity.
  - vm_compute. reflexivity.
Defined.

(** ** Content types *)

Section ContentType.

Lemma last_of_bound (set s : string) (k : nat) :
  last_of set s = Some k -> (k < String.length s)%nat.
Proof.
  revert k. induction s as [|a s IH]; intros k H; simpl in H.
  - discriminate.
  - destruct (last_of set s) as [j|].
    + injection H as <-. specialize (IH j eq_refl). simpl. lia.
    + destruct (mem_char a set); [|discriminate].
      injection H as <-. simpl. lia.
Qed.

(** No character of [s] is [c] exactly when the search finds nothing. *)
Lemma last_of_none (c : ascii) (s : string) :
  last_of (String c EmptyString) s = None <-> contains_char c s = false.
Proof.
  induction s as [|a s IH]; simpl.
  - tauto.
  - rewrite orb_false_r. destruct (last_of (String c EmptyString) s) as [j|].
    + split; [discriminate|]. intros H. apply orb_false_iff in H.
      destruct H as [_ H]. apply IH in H. discriminate.
    + destruct (Ascii.eqb a c); simpl.
      * split; discriminate.
      * split; intros _; [now apply IH | reflexivity].
Qed.

Lemma split_on_nonempty (c : ascii) (s : string) : split_on c s <> [].
Proof.
  destruct s as [|a s]; simpl; [discriminate|].
  destruct (Ascii.eqb a c); [discriminate|].
  destruct (split_on c s); discriminate.
Qed.

Lemma split_on_absent (c : ascii) (s : string) :
  contains_char c s = false -> split_on c s = [s].
Proof.
  induction s as [|a s IH]; simpl; intros H; [reflexivity|].
  apply orb_false_iff in H. destruct H as [-> H].
  now rewrite (IH H).
Qed.

Lemma split_on_present (c : ascii) (s : string) :
  contains_char c s = true ->
  exists first second others, split_on c s = first :: second :: others.
Proof.
  induction s as [|a s IH]; simpl; intros H; [discriminate|].
  destruct (Ascii.eqb a c); simpl in H.
  - pose proof (split_on_nonempty c s) as Hne.
    destruct (split_on c s) as [|second others]; [congruence|].
    now exists EmptyString, second, others.
  - destruct (IH H) as (first & second & others & ->).
    now exists (String a first), second, others.
Qed.

Lemma last_of_some_contains (c : ascii) (s : string) (k : nat) :
  last_of (String c EmptyString) s = Some k -> contains_char c s = true.
Proof.
  intros H. destruct (contains_char c s) eqn:E; [reflexivity|].
  apply last_of_none in E. congruence.
Qed.

(** The last piece of a split is what follows the last separator. *)
Lemma last_split_on (c : ascii) (s : string) (k : nat) :
  last_of (String c EmptyString) s = Some k ->
  last (split_on c s) EmptyString =
    substring (S k) (String.length s - S k) s.
Proof.
  revert k. induction s as [|a s IH]; intros k H; simpl in H.
  - discriminate.
  - rewrite orb_false_r in H.
    destruct (last_of (String c EmptyString) s) as [j|] eqn:E.
    + injection H as <-. specialize (IH j eq_refl).
      change (substring (S (S j)) (String.length (String a s) - S (S j)) (String a s))
        with (substring (S j) (String.length s - S j) s).
      rewrite <- IH. simpl split_on.
      destruct (split_on_present c s (last_of_some_contains c s j E))
        as (first & second & others & ->).
      now destruct (Ascii.eqb a c).
    + destruct (Ascii.eqb a c) eqn:Eac; [|discriminate].
      injection H as <-. simpl split_on. rewrite Eac.
      apply last_of_none in E. rewrite (split_on_absent _ _ E).
      simpl. rewrite Nat.sub_0_r.
      destruct s as [|b s]; [reflexivity|].
      symmetry. apply (substring_whole (String b s)). lia.
Qed.

(** [substr] from a position inside the string, with a count that reaches
    the end. *)
Lemma substr_suffix (s : string) (k : nat) (count : Z) :
  (k <= String.length s)%nat -> size s - Z.of_nat k <= count ->
  substr s (Z.of_nat k) count = Ok (substring k (String.length s - k) s).
Proof.
  intros Hk Hc. unfold substr, size in *.
  destruct (Z.of_nat (String.length s) <? Z.of_nat k) eqn:E;
    [apply Z.ltb_lt in E; lia|].
  do 2 f_equal; lia.
Qed.

Lemma getFileExtension_spec (path : string) :
  size path < npos -> getFileExtension path = Ok (spec_extension path).
Proof.
  intros Hsize. unfold getFileExtension, spec_extension, last_segment, find_last_of.
  cbv zeta.
  assert (Hfile :
    substr path (to_size_t (position (last_of "/" path) + 1)) npos
    = Ok (last (split_on "/" path) EmptyString)).
  { destruct (last_of "/" path) as [k|] eqn:E; unfold position.
    - pose proof (last_of_bound _ _ _ E) as Hk.
      rewrite to_size_t_small by (unfold size, npos in *; lia).
      replace (Z.of_nat k + 1) with (Z.of_nat (S k)) by lia.
      rewrite substr_suffix by (unfold size in *; lia).
      now rewrite (last_split_on _ _ _ E).
    - change (to_size_t (npos + 1)) with (Z.of_nat 0).
      rewrite substr_suffix by (unfold size in *; lia).
      apply last_of_none in E. rewrite (split_on_absent _ _ E).
      simpl last. rewrite Nat.sub_0_r.
      now rewrite substring_whole by lia. }
  rewrite Hfile. cbn [bind].
  set (file := last (split_on "/" path) EmptyString) in *.
  assert (Hle : size file <= size path) by (eapply substr_size_le; exact Hfile).
  change (to_size_t (-1)) with npos.
  destruct (last_of "." file) as [j|] eqn:E; unfold position.
  - pose proof (last_of_bound _ _ _ E) as Hj.
    rewrite (last_of_some_contains _ _ _ E).
    destruct (Z.of_nat j =? npos) eqn:En;
      [apply Z.eqb_eq in En; unfold size in *; lia|].
    rewrite to_size_t_small by (unfold size, npos in *; lia).
    replace (Z.of_nat j + 1) with (Z.of_nat (S j)) by lia.
    rewrite substr_suffix by (unfold size in *; lia).
    now rewrite (last_split_on _ _ _ E).
  - rewrite Z.eqb_refl. apply last_of_none in E. now rewrite E.
Qed.

Lemma defaultContentType_spec (extension : string) :
  defaultContentType extension = spec_content_type extension.
Proof.
  unfold defaultContentType, spec_content_type, content_type_table, lookup.
  repeat match goal with
         | |- context [String.eqb extension ?k] =>
             destruct (String.eqb extension k); cbn [orb]; try reflexivity
         end.
Qed.

End ContentType.

(** C9.  Content-type resolution depends on the path alone.  The extension
    [getFileExtension] computes is the substring after the last dot of the
    last path segment (empty when that segment has no dot), and
    [defaultContentType] maps it as the fixed table says, every extension
    outside the table, the empty one included, to
    [application/octet-stream]. *)
Theorem content_type_resolution :
  (forall path : string,
     size path < npos -> getFileExtension path = Ok (spec_extension path))
  /\ (forall extension : string,
        defaultContentType extension = spec_content_type extension)
  /\ (forall extension : string,
        lookup extension content_type_table = None ->
        defaultContentType extension = "application/octet-stream").
Proof.
  split; [exact getFileExtension_spec|].
  split; [exact defaultContentType_spec|].
  intros extension H. rewrite defaultContentType_spec.
  unfold spec_content_type. now rewrite H.
Qed.

(** C9 on [static/site.v2/data.json], [static/site.v2/README] and [a.xyz]. *)
Lemma content_type_resolution_witness :
  (size "static/site.v2/data.json" < npos
   /\ getFileExtension "static/site.v2/data.json" = Ok "json"
   /\ defaultContentType "json" = "application/json")
  /\ (getFileExtension "static/site.v2/README" = Ok EmptyString
      /\ lookup EmptyString content_type_table = None
      /\ defaultContentType EmptyString = "application/octet-stream")
  /\ (getFileExtension "a.xyz" = Ok "xyz"
      /\ defaultContentType "xyz" = "application/octet-stream").
Proof.
  destruct content_type_resolution as (Hext & Htype & Hdefault).
  assert (Hsize : size "static/site.v2/data.json" < npos) by (vm_compute; reflexivity).
  split; [|split].
  - split; [exact Hsize|]. split.
    + rewrite (Hext "static/site.v2/data.json" Hsize). reflexivity.
    + rewrite (Htype "json"). reflexivity.
  - split; [|split].
    + rewrite (Hext "static/site.v2/README"); [reflexivity | vm_compute; reflexivity].
    + reflexivity.
    + apply (Hdefault EmptyString). reflexivity.
  - split.
    + rewrite (Hext "a.xyz"); [reflexivity | vm_compute; reflexivity].
    + apply (Hdefault "xyz"). reflexivity.
Defined.

(** ** Reading files *)

Section Reading.

Lemma first_of_bound (set s : string) (k : nat) :
  first_of set s = Some k -> (k < String.length s)%nat.
Proof.
  revert k. induction s as [|a s IH]; intros k H; simpl in H.
  - discriminate.
  - destruct (mem_char a set).
    + injection H as <-. simpl. lia.
    + destruct (first_of set s) as [j|]; [|discriminate].
      injection H as <-. specialize (IH j eq_refl). simpl. lia.
Qed.

Lemma first_of_none (c : ascii) (s : string) :
  first_of (String c EmptyString) s = None <-> contains_char c s = false.
Proof.
  induction s as [|a s IH]; simpl.
  - tauto.
  - rewrite orb_false_r. destruct (Ascii.eqb a c); simpl.
    + split; discriminate.
    + destruct (first_of (String c EmptyString) s).
      * split; [discriminate|]. intros H. apply IH in H. discriminate.
      * split; intros _; [now apply IH | reflexivity].
Qed.

(** What [isValidFilePath] decides, for a path whose length fits an [int]. *)
Lemma isValidFilePath_iff (fs : filesystem) (path : string) :
  size path < 2 ^ 31 ->
  isValidFilePath fs path = true <->
  contains_char "/" path = true /\ exists bytes, read_file fs path = Some bytes.
Proof.
  intros Hsize. unfold isValidFilePath, find_first_of, ifstream_open. cbv zeta.
  destruct (first_of "/" path) as [k|] eqn:E; unfold position.
  - pose proof (first_of_bound _ _ _ E) as Hk.
    rewrite to_int_small by (unfold size in *; lia).
    rewrite to_size_t_small by (unfold size, SIZE_MODULUS in *; lia).
    destruct (Z.of_nat k >? size path) eqn:G;
      [apply Z.gtb_lt in G; unfold size in *; lia|].
    assert (Hc : contains_char "/" path = true).
    { destruct (contains_char "/" path) eqn:C; [reflexivity|].
      apply first_of_none in C. congruence. }
    destruct (read_file fs path) as [bytes|]; simpl.
    + split; [eauto | reflexivity].
    + split; [discriminate | intros (_ & bytes & H); discriminate].
  - change (to_size_t (to_int npos)) with npos.
    destruct (npos >? size path) eqn:G.
    + apply first_of_none in E. rewrite E. split; [discriminate | intros [H _]; discriminate].
    + rewrite Z.gtb_ltb in G. apply Z.ltb_ge in G. unfold npos, SIZE_MODULUS in G. lia.
Qed.


(** [extract_line] splits the unread bytes at the first newline. *)
Lemma extract_line_spec (bytes : string) :
  match extract_line bytes with
  | (line, rest, true) => bytes = line /\ rest = EmptyString
  | (line, rest, false) => bytes = line ++ String LF rest
  end.
Proof.
  induction bytes as [|c bytes IH]; simpl.
  - split; reflexivity.
  - destruct (Ascii.eqb c LF) eqn:E.
    + apply Ascii.eqb_eq in E. now subst c.
    + destruct (extract_line bytes) as [[line rest] [|]]; simpl.
      * destruct IH as [-> ->]. split; reflexivity.
      * now rewrite IH.
Qed.

(** The loop of [fetchFileContents] leaves the loop because the stream is
    no longer good, and has then appended every byte of the file and one
    newline. *)
Lemma read_lines_exits (fuel : nat) (bytes contents : string) :
  (String.length bytes < fuel)%nat ->
  read_lines fuel (mkIfstream bytes true) contents =
    (mkIfstream EmptyString false, contents ++ bytes ++ String LF EmptyString).
Proof.
  revert bytes contents. induction fuel as [|fuel IH]; intros bytes contents H.
  - lia.
  - simpl read_lines. unfold getline. simpl unread.
    pose proof (extract_line_spec bytes) as Hline.
    destruct (extract_line bytes) as [[line rest] [|]].
    + destruct Hline as [-> ->]. simpl negb.
      rewrite append_assoc. destruct fuel; reflexivity.
    + subst bytes. simpl negb. rewrite IH.
      * f_equal. rewrite !append_assoc. reflexivity.
      * rewrite length_append in H. simpl in H. lia.
Qed.

(** [fetchFileContents] on a file that can be opened: status 200, the
    given content type, the length of the file in decimal, and the bytes
    of the file as they are. *)
Lemma fetchFileContents_readable (fs : filesystem) (path contentType bytes : string) :
  read_file fs path = Some bytes ->
  size bytes < SIZE_MODULUS ->
  fetchFileContents fs path contentType =
    Ok (HTTP200 ++ "Content-Type: " ++ contentType ++ CRLF
          ++ "Content-Length: " ++ to_string (size bytes) ++ CRLF
          ++ CRLF ++ bytes).
Proof.
  intros Hread Hsize. unfold fetchFileContents, ifstream_open. cbv zeta.
  rewrite Hread. simpl unread.
  rewrite read_lines_exits by lia.
  change (EmptyString ++ bytes ++ String LF EmptyString)
    with (bytes ++ String LF EmptyString).
  replace (to_size_t (size (bytes ++ String LF EmptyString) - 1)) with (size bytes).
  - rewrite substr_start. cbn [bind]. f_equal. now rewrite !append_assoc.
  - rewrite size_append. change (size (String LF EmptyString)) with 1.
    pose proof (size_nonneg bytes).
    rewrite to_size_t_small by lia. lia.
Qed.

End Reading.

(** ** The [files/] route of GET *)

Section GetFiles.

Variables (bytes_received : Z) (received directory : string) (fs : filesystem)
          (requestContents : string).
Hypothesis received_in_buffer : 0 <= bytes_received <= BUFFER_SIZE.
Hypothesis request_read :
  c_string (recv_into buffer_init received) = Some requestContents.

Lemma substr_first_char (c : ascii) (s r : string) (count : Z) :
  0 < count -> substr (String c s) 0 count = Ok r -> exists r', r = String c r'.
Proof.
  intros Hc. unfold substr. rewrite size_String. pose proof (size_nonneg s) as Hs.
  destruct (1 + size s <? 0) eqn:E; [apply Z.ltb_lt in E; lia|].
  remember (Z.to_nat (Z.min count (1 + size s - 0))) as m eqn:Em.
  destruct m as [|m]; [lia|].
  simpl. intros H. injection H as <-. now exists (substring 0 m s).
Qed.

Lemma codeCraftersGetFile_files (name : string) :
  codeCraftersGetFile fs ("files/" ++ name) directory =
    if negb (isValidFilePath fs (directory ++ name)) then Ok (HTTP404 ++ CRLF)
    else fetchFileContents fs (directory ++ name) "application/octet-stream".
Proof.
  unfold codeCraftersGetFile.
  replace (substr ("files/" ++ name) 6 (size ("files/" ++ name))) with (Ok name).
  - reflexivity.
  - symmetry. change 6 with (size "files/"). apply substr_to_end.
    rewrite size_append. pose proof (size_nonneg "files/"). lia.
Qed.

(** A GET request whose path starts with [files/] is answered by
    [codeCraftersGetFile]. *)
Lemma handleClient_get_files (name : string) :
  getMethod requestContents = Ok "GET" ->
  getPath requestContents = Ok ("files/" ++ name) ->
  handleClient bytes_received received directory fs =
    match codeCraftersGetFile fs ("files/" ++ name) directory with
    | Ok response => Sent response fs
    | OutOfRange => Terminated
    end.
Proof.
  intros Hmethod Hpath.
  enter_dispatch received_in_buffer request_read Hpath Hmethod.
  change (String.eqb "GET" "GET") with true. cbv iota.
  change (String.eqb ("files/" ++ name) EmptyString) with false. cbv iota.
  change ("files/" ++ name) with ("files" ++ "/" ++ name) at 1.
  change 5 with (size "files"). rewrite substr_start. cbn [bind].
  change (String.eqb "files" "echo/") with false. cbv iota.
  destruct (substr_zero_ok ("files/" ++ name) 10) as [prefix10 H10].
  rewrite H10. cbn [bind].
  assert (Hf : exists rest, prefix10 = String "f" rest).
  { apply (substr_first_char "f" ("iles/" ++ name) prefix10 10); [lia | exact H10]. }
  destruct Hf as [rest ->].
  change (String.eqb (String "f" rest) "user-agent") with false. cbv iota.
  change 6 with (size "files/") at 1. rewrite substr_start. cbn [bind].
  change (String.eqb "files/" "files/") with true. cbv iota.
  destruct (codeCraftersGetFile fs ("files/" ++ name) directory); reflexivity.
Qed.

End GetFiles.


(** X19.  When the path the server opens for
    [files/<f>] (the configured directory followed by [<f>]) contains a
    slash and names a file that can be opened, the response is status 200
    with [Content-Type: application/octet-stream], [Content-Length] the
    byte length of the body, and a body equal to the bytes of the file:
    the line-by-line reconstruction appends one newline too many, and
    exactly that one is stripped. *)
Theorem get_file_response :
  forall (bytes_received : Z) (received directory : string) (fs : filesystem)
         (requestContents f bytes : string),
    0 <= bytes_received <= BUFFER_SIZE ->
    c_string (recv_into buffer_init received) = Some requestContents ->
    getMethod requestContents = Ok "GET" ->
    getPath requestContents = Ok ("files/" ++ f) ->
    read_file fs (directory ++ f) = Some bytes ->
    contains_char "/" (directory ++ f) = true ->
    size (directory ++ f) < 2 ^ 31 ->
    size bytes < SIZE_MODULUS ->
    handleClient bytes_received received directory fs =
      Sent (HTTP200 ++ "Content-Type: application/octet-stream" ++ CRLF
              ++ "Content-Length: " ++ to_string (size bytes) ++ CRLF
              ++ CRLF ++ bytes) fs.
Proof.
  intros n received directory fs s f bytes Hn Hreq Hmethod Hpath Hread Hslash
         Hsize Hbytes.
  rewrite (handleClient_get_files n received directory fs s Hn Hreq f)
    by assumption.
  rewrite codeCraftersGetFile_files.
  assert (Hvalid : isValidFilePath fs (directory ++ f) = true).
  { apply isValidFilePath_iff; [exact Hsize|]. split; [exact Hslash | eauto]. }
  rewrite Hvalid. cbn [negb].
  now rewrite (fetchFileContents_readable fs _ _ bytes Hread Hbytes).
Qed.

(** [get_file_response] on [GET /files/notes.txt] with the directory
    [/tmp/d/]: the two lines of the file come back with both of their
    newlines. *)
Lemma get_file_response_witness :
  handleClient (size (request "GET /files/notes.txt" EmptyString))
               (request "GET /files/notes.txt" EmptyString) "/tmp/d/" fs_served =
    Sent ("HTTP/1.1 200 OK" ++ CRLF
            ++ "Content-Type: application/octet-stream" ++ CRLF
            ++ "Content-Length: 18" ++ CRLF ++ CRLF
            ++ "line one" ++ String LF EmptyString
            ++ "line two" ++ String LF EmptyString) fs_served.
Proof.
  apply (get_file_response _ (request "GET /files/notes.txt" EmptyString) "/tmp/d/"
           fs_served (request "GET /files/notes.txt" EmptyString) "notes.txt" notes).
  - vm_compute. split; discriminate.
  - vm_compute. reflexivity.
  - vm_compute. reflexivity.
  - vm_compute. reflexivity.
  - vm_compute. reflexivity.
  - vm_compute. reflexivity.
  - vm_compute. reflexivity.
  - vm_compute. reflexivity.
Defined.

(** When no directory is configured (the root is then the empty string),
    [a.txt] exists and can be opened, yet [GET /files/a.txt] is answered
    404, because the path [a.txt] has no slash. *)
Lemma get_file_without_slash :
  read_file fs_cwd (EmptyString ++ "a.txt") = Some "hi"
  /\ getMethod (request "GET /files/a.txt" EmptyString) = Ok "GET"
  /\ getPath (request "GET /files/a.txt" EmptyString) = Ok "files/a.txt"
  /\ handleClient (size (request "GET /files/a.txt" EmptyString))
                  (request "GET /files/a.txt" EmptyString) EmptyString fs_cwd
     = Sent (HTTP404 ++ CRLF) fs_cwd.
Proof. repeat split; vm_compute; reflexivity. Qed.


(** ** The path that [codeCraftersGetFile] forms

    [codeCraftersGetFile] puts nothing between the configured directory
    and the name (line 403); [storeFile], on line 417, puts a slash
    there.  With the directory [/tmp/d] the file looked up for
    [files/<name>] is therefore [/tmp/d<name>], beside the directory and
    not under it. *)

(** C4, what the code does.  The directory [/tmp/d] holds [notes.txt],
    and with that directory configured a GET of [/files/notes.txt] is
    answered 404: the file looked up is [/tmp/dnotes.txt]. *)
Theorem file_under_directory_not_found :
  read_file fs_served "/tmp/d/notes.txt" = Some notes
  /\ getMethod (request "GET /files/notes.txt" EmptyString) = Ok "GET"
  /\ getPath (request "GET /files/notes.txt" EmptyString) = Ok "files/notes.txt"
  /\ codeCraftersGetFile fs_served "files/notes.txt" "/tmp/d" = Ok (HTTP404 ++ CRLF)
  /\ handleClient (size (request "GET /files/notes.txt" EmptyString))
                  (request "GET /files/notes.txt" EmptyString) "/tmp/d" fs_served
     = Sent (HTTP404 ++ CRLF) fs_served.
Proof.
  split; [vm_compute; reflexivity|].
  split; [vm_compute; reflexivity|].
  split; [vm_compute; reflexivity|].
  split; vm_compute; reflexivity.
Qed.

(** C5, what the code does.  Nothing named [x] is under the directory
    [/tmp/d], and with that directory configured a GET of [/files/x] is
    answered 200 with the bytes of [/tmp/dx], the file beside the
    directory. *)
Theorem file_beside_directory_is_served :
  read_file fs_beside "/tmp/d/x" = None
  /\ getMethod (request "GET /files/x" EmptyString) = Ok "GET"
  /\ getPath (request "GET /files/x" EmptyString) = Ok "files/x"
  /\ codeCraftersGetFile fs_beside "files/x" "/tmp/d"
     = Ok ("HTTP/1.1 200 OK" ++ CRLF
             ++ "Content-Type: application/octet-stream" ++ CRLF
             ++ "Content-Length: 5" ++ CRLF ++ CRLF ++ "other")
  /\ handleClient (size (request "GET /files/x" EmptyString))
                  (request "GET /files/x" EmptyString) "/tmp/d" fs_beside
     = Sent ("HTTP/1.1 200 OK" ++ CRLF
               ++ "Content-Type: application/octet-stream" ++ CRLF
               ++ "Content-Length: 5" ++ CRLF ++ CRLF ++ "other") fs_beside.
Proof.
  split; [vm_compute; reflexivity|].
  split; [vm_compute; reflexivity|].
  split; [vm_compute; reflexivity|].
  split; vm_compute; reflexivity.
Qed.

(** ** Markers that are absent *)

Section AbsentMarker.

Lemma starts_with_inv (m s : string) :
  starts_with m s = true -> exists b, s = m ++ b.
Proof.
  revert s. induction m as [|c m IH]; intros s H.
  - now exists s.
  - destruct s as [|d s]; simpl in H; [discriminate|].
    apply andb_true_iff in H. destruct H as [Hc Hm].
    apply Ascii.eqb_eq in Hc. subst d.
    destruct (IH s Hm) as [b ->]. now exists b.
Qed.

Lemma first_occurrence_some (m s : string) (k : nat) :
  first_occurrence m s = Some k -> occurs m s.
Proof.
  revert k. induction s as [|c s IH]; intros k H.
  - simpl in H. destruct (starts_with m EmptyString) eqn:E; [|discriminate].
    destruct (starts_with_inv _ _ E) as [b Hb].
    exists EmptyString, b. exact Hb.
  - simpl in H. destruct (starts_with m (String c s)) eqn:E.
    + destruct (starts_with_inv _ _ E) as [b Hb].
      exists EmptyString, b. exact Hb.
    + destruct (first_occurrence m s) as [j|]; [|discriminate].
      destruct (IH j eq_refl) as (a & b & ->).
      now exists (String c a), b.
Qed.

(** [find] returns [npos] exactly for the markers that do not occur. *)
Lemma first_occurrence_none (m s : string) :
  first_occurrence m s = None <-> ~ occurs m s.
Proof.
  split.
  - intros H (a & b & ->). revert H.
    induction a as [|c a IH]; intros H.
    + destruct (m ++ b) eqn:E; simpl in H.
      * rewrite <- E, starts_with_app in H. discriminate.
      * rewrite <- E, starts_with_app in H. discriminate.
    + simpl in H. destruct (starts_with m (String c (a ++ m ++ b))); [discriminate|].
      destruct (first_occurrence m (a ++ m ++ b)); [discriminate|].
      now apply IH.
  - intros H. destruct (first_occurrence m s) as [k|] eqn:E; [|reflexivity].
    exfalso. apply H. eapply first_occurrence_some. exact E.
Qed.

Lemma absent_marker_nonempty (m s : string) :
  first_occurrence m s = None -> 1 <= size m.
Proof.
  destruct m as [|c m]; intros H.
  - destruct s; discriminate.
  - rewrite size_String. pose proof (size_nonneg m). lia.
Qed.

(** [npos + i] in [std::size_t]. *)
Lemma npos_plus (i : Z) : 1 <= i < SIZE_MODULUS -> to_size_t (npos + i) = i - 1.
Proof.
  intros H. unfold to_size_t, npos.
  replace (SIZE_MODULUS - 1 + i) with (i - 1 + 1 * SIZE_MODULUS) by lia.
  rewrite Z_mod_plus_full. apply Z.mod_small. lia.
Qed.

(** Where parsing starts when the first marker is absent: at index
    [size firstMarker - 1] of the request. *)
Lemma absent_marker_start (s m : string) :
  first_occurrence m s = None -> size m < 2 ^ 31 ->
  to_size_t (find s m + to_int (size m)) = Z.of_nat (String.length m - 1).
Proof.
  intros Habsent Hm. pose proof (absent_marker_nonempty _ _ Habsent) as H1.
  unfold find. rewrite Habsent. unfold position.
  rewrite to_int_small by lia.
  rewrite npos_plus by (unfold SIZE_MODULUS; lia).
  unfold size in *. lia.
Qed.

(** [parseFromThisToEnd] with an absent marker returns the request from
    index [size firstMarker - 1] on, and throws when the request is shorter
    than that. *)
Lemma parseFromThisToEnd_absent (s m : string) :
  first_occurrence m s = None -> size m < 2 ^ 31 ->
  parseFromThisToEnd s m =
    if size s <? size m - 1 then OutOfRange
    else Ok (substring (String.length m - 1)
               (String.length s - (String.length m - 1)) s).
Proof.
  intros Habsent Hm. pose proof (absent_marker_nonempty _ _ Habsent) as H1.
  unfold parseFromThisToEnd. cbv zeta.
  rewrite absent_marker_start by assumption.
  destruct (size s <? size m - 1) eqn:E.
  - unfold substr. replace (Z.of_nat (String.length m - 1)) with (size m - 1)
      by (unfold size in *; lia).
    now rewrite E.
  - apply Z.ltb_ge in E. apply substr_suffix; unfold size in *; lia.
Qed.

(** [parseBetween] with an absent first marker throws under the same
    condition, and otherwise returns characters of the request that start
    at index [size firstMarker - 1]. *)
Lemma parseBetween_absent (s m1 m2 : string) :
  first_occurrence m1 s = None -> size m1 < 2 ^ 31 -> size s <= npos ->
  parseBetween s m1 m2 =
    if size s <? size m1 - 1 then OutOfRange
    else
      let suffix :=
        substring (String.length m1 - 1)
          (String.length s - (String.length m1 - 1)) s in
      substr s (size m1 - 1) (find suffix m2).
Proof.
  intros Habsent Hm Hs. pose proof (absent_marker_nonempty _ _ Habsent) as H1.
  unfold parseBetween. cbv zeta.
  rewrite absent_marker_start by assumption.
  replace (size m1 - 1) with (Z.of_nat (String.length m1 - 1))
    by (unfold size in *; lia).
  destruct (size s <? Z.of_nat (String.length m1 - 1)) eqn:E.
  - unfold substr at 1. now rewrite E.
  - apply Z.ltb_ge in E.
    rewrite substr_suffix by (unfold size, npos, SIZE_MODULUS in *; lia).
    reflexivity.
Qed.

End AbsentMarker.

(** ** Paths and places *)

Section Paths.

Lemma components_nonempty (p : string) : components p <> [].
Proof.
  destruct p as [|a p]; simpl; [discriminate|].
  destruct (is_slash a); [discriminate|].
  destruct (components p); discriminate.
Qed.

(** The components of two paths joined by a slash are those of the one
    followed by those of the other. *)
Lemma components_app (a b : string) :
  components (a ++ String "/" b) = (components a ++ components b)%list.
Proof.
  induction a as [|c a IH].
  - reflexivity.
  - change (String c a ++ String "/" b) with (String c (a ++ String "/" b)).
    cbn [components]. rewrite IH.
    destruct (is_slash c); [reflexivity|].
    pose proof (components_nonempty a) as Hne.
    destruct (components a) as [|c0 cs]; [contradiction | reflexivity].
Qed.

(** An empty component in the middle of a path changes nothing. *)
Lemma walk_skip (fs : filesystem) (cs1 cs2 : list string) :
  cs2 <> [] ->
  forall here,
    walk fs here (cs1 ++ EmptyString :: cs2)%list = walk fs here (cs1 ++ cs2)%list.
Proof.
  intros Hne. induction cs1 as [|c cs1 IH]; intros here.
  - reflexivity.
  - change ((c :: cs1) ++ EmptyString :: cs2)%list
      with (c :: (cs1 ++ EmptyString :: cs2)%list).
    change ((c :: cs1) ++ cs2)%list with (c :: (cs1 ++ cs2)%list).
    cbn [walk]. rewrite !IH.
    destruct cs1 as [|c1 cs1]; [|reflexivity].
    destruct cs2 as [|c2 cs2]; [contradiction | reflexivity].
Qed.

(** A doubled slash names the same place as a single one. *)
Lemma locate_double_slash (fs : filesystem) (d n : string) :
  locate fs (d ++ "//" ++ n) = locate fs (d ++ "/" ++ n).
Proof.
  destruct d as [|c d].
  - reflexivity.
  - change ("//" ++ n) with (String "/" (String "/" n)).
    change ("/" ++ n) with (String "/" n).
    unfold locate.
    change (String c d ++ String "/" (String "/" n))
      with (String c (d ++ String "/" (String "/" n))).
    change (String c d ++ String "/" n) with (String c (d ++ String "/" n)).
    cbv iota.
    change (String c (d ++ String "/" (String "/" n)))
      with (String c d ++ String "/" (String "/" n)).
    change (String c (d ++ String "/" n)) with (String c d ++ String "/" n).
    rewrite !components_app.
    change (components (String "/" n)) with (EmptyString :: components n).
    apply walk_skip, components_nonempty.
Qed.

Lemma read_file_double_slash (fs : filesystem) (d n : string) :
  read_file fs (d ++ "//" ++ n) = read_file fs (d ++ "/" ++ n).
Proof.
  unfold read_file. now rewrite locate_double_slash.
Qed.

End Paths.

(** ** A file system that grows

    Directories stay, no regular file is replaced by a directory, and
    every regular file remains one: then a path that led to a directory or
    to a regular file still leads there. *)

Section Growth.

Variables fs fs' : filesystem.
Hypothesis directories_kept :
  forall q, directory_exists fs q = true -> directory_exists fs' q = true.
Hypothesis files_not_replaced :
  forall q, directory_exists fs q = false -> lookup q (files fs) <> None ->
            directory_exists fs' q = false.
Hypothesis files_kept :
  forall q, lookup q (files fs) <> None -> lookup q (files fs') <> None.

Lemma walk_grows (cs : list string) :
  forall here,
    match walk fs here cs with
    | Some (Directory q) => walk fs' here cs = Some (Directory q)
    | Some (Regular q) => walk fs' here cs = Some (Regular q)
    | Some (Absent q) =>
        directory_exists fs' q = false ->
        walk fs' here cs =
          Some (match lookup q (files fs') with
                | Some _ => Regular q
                | None => Absent q
                end)
    | None => True
    end.
Proof.
  induction cs as [|c cs IH]; intros here.
  - reflexivity.
  - cbn [walk].
    destruct (String.eqb c EmptyString || String.eqb c "."); [apply IH|].
    destruct (String.eqb c ".."); [apply IH|].
    destruct (directory_exists fs (child here c)) eqn:D.
    + rewrite (directories_kept _ D). apply IH.
    + destruct cs as [|c' cs]; [|exact I].
      destruct (lookup (child here c) (files fs)) as [bytes|] eqn:L.
      * rewrite (files_not_replaced _ D) by congruence.
        assert (L' : lookup (child here c) (files fs') <> None)
          by (apply files_kept; congruence).
        destruct (lookup (child here c) (files fs')); [reflexivity | contradiction].
      * intros D'. rewrite D'.
        destruct (lookup (child here c) (files fs')); reflexivity.
Qed.

Lemma locate_grows (p : string) :
  match locate fs p with
  | Some (Directory q) => locate fs' p = Some (Directory q)
  | Some (Regular q) => locate fs' p = Some (Regular q)
  | Some (Absent q) =>
      directory_exists fs' q = false ->
      locate fs' p =
        Some (match lookup q (files fs') with
              | Some _ => Regular q
              | None => Absent q
              end)
  | None => True
  end.
Proof.
  unfold locate. destruct p as [|a p]; [exact I | apply walk_grows].
Qed.

(** What could be read can still be read, from the same place. *)
Lemma read_file_grows (p bytes : string) :
  read_file fs p = Some bytes ->
  (exists q, locate fs p = Some (Directory q) /\ locate fs' p = Some (Directory q)
             /\ bytes = EmptyString)
  \/ (exists q, locate fs p = Some (Regular q) /\ locate fs' p = Some (Regular q)
                /\ lookup q (files fs) = Some bytes).
Proof.
  unfold read_file. pose proof (locate_grows p) as H.
  destruct (locate fs p) as [[q|q|q]|]; try discriminate.
  - intros E. left. exists q. injection E as <-. auto.
  - intros E. right. exists q. auto.
Qed.

End Growth.

Section Writing.

(** A path that leads to a file, or to a free name, does not lead to a
    directory. *)
Lemma walk_not_directory (fs : filesystem) (cs : list string) :
  forall here q,
    walk fs here cs = Some (Regular q) \/ walk fs here cs = Some (Absent q) ->
    directory_exists fs q = false.
Proof.
  induction cs as [|c cs IH]; intros here q.
  - intros [H|H]; discriminate.
  - cbn [walk].
    destruct (String.eqb c EmptyString || String.eqb c "."); [apply IH|].
    destruct (String.eqb c ".."); [apply IH|].
    destruct (directory_exists fs (child here c)) eqn:D; [apply IH|].
    destruct cs as [|c' cs]; [|intros [H|H]; discriminate].
    destruct (lookup (child here c) (files fs));
      intros [H|H]; try discriminate; injection H as <-; exact D.
Qed.

Lemma locate_not_directory (fs : filesystem) (p q : string) :
  locate fs p = Some (Regular q) \/ locate fs p = Some (Absent q) ->
  directory_exists fs q = false.
Proof.
  unfold locate. destruct p as [|a p]; [intros [H|H]; discriminate|].
  apply walk_not_directory.
Qed.

Lemma can_create_place (fs : filesystem) (p : string) :
  can_create fs p = true ->
  exists q, locate fs p = Some (Regular q) \/ locate fs p = Some (Absent q).
Proof.
  unfold can_create. destruct (locate fs p) as [[q|q|q]|]; try discriminate; eauto.
Qed.

Lemma write_file_place (fs : filesystem) (p q bytes : string) :
  locate fs p = Some (Regular q) \/ locate fs p = Some (Absent q) ->
  write_file fs p bytes = mkFilesystem (directories fs) ((q, bytes) :: files fs).
Proof. unfold write_file. intros [-> | ->]; reflexivity. Qed.

(** Once written, the path leads to the regular file. *)
Lemma locate_written (fs : filesystem) (p q bytes : string) :
  locate fs p = Some (Regular q) \/ locate fs p = Some (Absent q) ->
  locate (mkFilesystem (directories fs) ((q, bytes) :: files fs)) p
  = Some (Regular q).
Proof.
  intros H. pose proof (locate_not_directory _ _ _ H) as D.
  pose proof (locate_grows fs
                (mkFilesystem (directories fs) ((q, bytes) :: files fs))) as G.
  specialize (G (fun _ E => E)).
  assert (G2 : forall q0 : string,
             directory_exists fs q0 = false ->
             lookup q0 (files fs) <> None ->
             directory_exists
               (mkFilesystem (directories fs) ((q, bytes) :: files fs)) q0 = false)
    by (intros q0 E _; exact E).
  assert (G3 : forall q0 : string,
             lookup q0 (files fs) <> None ->
             lookup q0
               (files (mkFilesystem (directories fs) ((q, bytes) :: files fs)))
             <> None).
  { intros q0 E. cbn [files lookup]. destruct (String.eqb q0 q); [discriminate | exact E]. }
  specialize (G G2 G3 p).
  destruct H as [H|H]; rewrite H in G; [exact G|].
  rewrite (G D). cbn [files lookup]. now rewrite String.eqb_refl.
Qed.

(** What [storeFile] leaves behind when the destination can be opened:
    the stream creates or truncates the file, the body is written to it,
    and the destination then leads to that file. *)
Lemma stored_file (fs : filesystem) (p bytes : string) :
  can_create fs p = true ->
  exists q,
    write_file (write_file fs p EmptyString) p bytes
    = mkFilesystem (directories fs) ((q, bytes) :: (q, EmptyString) :: files fs)
    /\ locate (write_file (write_file fs p EmptyString) p bytes) p
       = Some (Regular q)
    /\ directory_exists fs q = false.
Proof.
  intros H. destruct (can_create_place _ _ H) as [q Hq]. exists q.
  pose proof (locate_written fs p q EmptyString Hq) as H1.
  rewrite (write_file_place fs p q EmptyString Hq).
  rewrite (write_file_place _ p q bytes (or_introl H1)).
  split; [reflexivity|]. split.
  - apply (locate_written _ p q bytes (or_introl H1)).
  - apply (locate_not_directory _ _ _ Hq).
Qed.

(** The file that was stored is the file that is read. *)
Lemma read_after_write (fs : filesystem) (p bytes : string) :
  can_create fs p = true ->
  read_file (write_file (write_file fs p EmptyString) p bytes) p = Some bytes.
Proof.
  intros H. destruct (stored_file fs p bytes H) as (q & Hfs & Hq & _).
  unfold read_file. rewrite Hq, Hfs. cbn [files lookup].
  now rewrite String.eqb_refl.
Qed.

(** [mkdir] touches no file, keeps every directory, and turns no file
    into a directory. *)
Lemma files_mkdir (fs : filesystem) (d : string) : files (mkdir fs d) = files fs.
Proof.
  unfold mkdir. destruct (locate fs (strip_slashes d)) as [[q|q|q]|]; reflexivity.
Qed.

Lemma mkdir_keeps (fs : filesystem) (d q : string) :
  directory_exists fs q = true -> directory_exists (mkdir fs d) q = true.
Proof.
  unfold mkdir. destruct (locate fs (strip_slashes d)) as [[q0|q0|q0]|]; auto.
  unfold directory_exists. cbn [directories existsb]. intros H.
  apply orb_true_iff in H. destruct H as [H|H].
  - rewrite H. reflexivity.
  - rewrite H. now rewrite !orb_true_r.
Qed.

(** A free name holds no file. *)
Lemma walk_absent_free (fs : filesystem) (cs : list string) :
  forall here q, walk fs here cs = Some (Absent q) -> lookup q (files fs) = None.
Proof.
  induction cs as [|c cs IH]; intros here q.
  - discriminate.
  - cbn [walk].
    destruct (String.eqb c EmptyString || String.eqb c "."); [apply IH|].
    destruct (String.eqb c ".."); [apply IH|].
    destruct (directory_exists fs (child here c)); [apply IH|].
    destruct cs as [|c' cs]; [|discriminate].
    destruct (lookup (child here c) (files fs)) eqn:L; [discriminate|].
    intros H. injection H as <-. exact L.
Qed.

Lemma mkdir_no_file (fs : filesystem) (d q : string) :
  directory_exists fs q = false -> lookup q (files fs) <> None ->
  directory_exists (mkdir fs d) q = false.
Proof.
  intros D L. unfold mkdir.
  destruct (locate fs (strip_slashes d)) as [[q0|q0|q0]|] eqn:E; try exact D.
  assert (F : lookup q0 (files fs) = None).
  { unfold locate in E. destruct (strip_slashes d) as [|a p]; [discriminate|].
    apply (walk_absent_free _ _ _ _ E). }
  unfold directory_exists in *. cbn [directories existsb].
  destruct (String.eqb q q0) eqn:Q.
  - apply String.eqb_eq in Q. subst q0. contradiction.
  - exact D.
Qed.

(** What a written file changes for a path: a free name that is the
    name written now leads to the file, and nothing else. *)
Lemma walk_written (fs : filesystem) (q bytes : string) (cs : list string) :
  forall here,
    walk (mkFilesystem (directories fs) ((q, bytes) :: files fs)) here cs
    = match walk fs here cs with
      | Some (Absent q') =>
          if String.eqb q' q then Some (Regular q') else Some (Absent q')
      | r => r
      end.
Proof.
  induction cs as [|c cs IH]; intros here.
  - reflexivity.
  - cbn [walk].
    destruct (String.eqb c EmptyString || String.eqb c "."); [apply IH|].
    destruct (String.eqb c ".."); [apply IH|].
    change (directory_exists
              (mkFilesystem (directories fs) ((q, bytes) :: files fs))
              (child here c))
      with (directory_exists fs (child here c)).
    destruct (directory_exists fs (child here c)); [apply IH|].
    destruct cs as [|c' cs]; [|reflexivity].
    cbn [files lookup].
    destruct (lookup (child here c) (files fs));
      destruct (String.eqb (child here c) q); reflexivity.
Qed.

(** A path that does not lead to the file written reads as before. *)
Lemma read_file_elsewhere (fs : filesystem) (q bytes p : string) :
  locate (mkFilesystem (directories fs) ((q, bytes) :: files fs)) p
  <> Some (Regular q) ->
  locate fs p <> Some (Regular q)
  /\ read_file (mkFilesystem (directories fs) ((q, bytes) :: files fs)) p
     = read_file fs p.
Proof.
  unfold read_file, locate. destruct p as [|a p]; [split; [discriminate | reflexivity]|].
  rewrite walk_written.
  destruct (walk fs (if is_slash a then "/" else EmptyString)
              (components (String a p))) as [[q'|q'|q']|]; intros H.
  - split; [discriminate | reflexivity].
  - cbn [files lookup]. destruct (String.eqb q' q) eqn:Q.
    + apply String.eqb_eq in Q. subst q'. contradiction.
    + split; [|reflexivity]. intros E. injection E as ->.
      rewrite String.eqb_refl in Q. discriminate.
  - destruct (String.eqb q' q) eqn:Q.
    + apply String.eqb_eq in Q. subst q'. contradiction.
    + split; [discriminate | reflexivity].
  - split; [discriminate | reflexivity].
Qed.

(** What could be read before [mkdir] can be read after it. *)
Lemma read_file_mkdir (fs : filesystem) (d p bytes : string) :
  read_file fs p = Some bytes -> read_file (mkdir fs d) p = Some bytes.
Proof.
  intros H.
  destruct (read_file_grows fs (mkdir fs d)
              (mkdir_keeps fs d) (mkdir_no_file fs d)
              (fun q L => eq_ind_r (fun l => lookup q l <> None) L (files_mkdir fs d))
              p bytes H)
    as [(q & _ & Hq & ->) | (q & _ & Hq & L)]; unfold read_file; rewrite Hq.
  - reflexivity.
  - now rewrite files_mkdir.
Qed.

End Writing.

(** ** The [files/] route of POST *)

Section PostFiles.

Variables (bytes_received : Z) (received directory : string) (fs : filesystem)
          (requestContents : string).
Hypothesis received_in_buffer : 0 <= bytes_received <= BUFFER_SIZE.
Hypothesis request_read :
  c_string (recv_into buffer_init received) = Some requestContents.

Lemma storeFile_files (name : string) :
  storeFile fs ("files/" ++ name) directory requestContents =
    match ofstream_open (mkdir fs directory) (destination directory name) with
    | None => Ok (false, mkdir fs directory)
    | Some created =>
        body <- parseFromThisToEnd requestContents (CRLF ++ CRLF) ;;
        Ok (true, write_file created (destination directory name) body)
    end.
Proof.
  unfold storeFile.
  replace (substr ("files/" ++ name) 6 (size ("files/" ++ name))) with (Ok name).
  - reflexivity.
  - symmetry. change 6 with (size "files/"). apply substr_to_end.
    rewrite size_append. pose proof (size_nonneg "files/"). lia.
Qed.

(** A POST request whose path starts with [files/] is answered 201 or 500
    as [storeFile] reports. *)
Lemma handleClient_post_files (name : string) :
  getMethod requestContents = Ok "POST" ->
  getPath requestContents = Ok ("files/" ++ name) ->
  handleClient bytes_received received directory fs =
    match storeFile fs ("files/" ++ name) directory requestContents with
    | Ok (saved, fs') =>
        Sent (if saved then HTTP201 ++ CRLF else HTTP500 ++ CRLF) fs'
    | OutOfRange => Terminated
    end.
Proof.
  intros Hmethod Hpath.
  enter_dispatch received_in_buffer request_read Hpath Hmethod.
  change (String.eqb "POST" "GET") with false.
  change (String.eqb "POST" "POST") with true. cbv iota.
  change 6 with (size "files/") at 1. rewrite substr_start. cbn [bind].
  change (String.eqb "files/" "files/") with true. cbv iota.
  destruct (storeFile fs ("files/" ++ name) directory requestContents)
    as [[[|] fs']|]; reflexivity.
Qed.

End PostFiles.

(** C10, as the code has it.  For a POST to [files/<name>] whose bytes
    hold no blank-line marker and are at least 3 long, whenever the
    destination can be opened for writing, [storeFile] reports success,
    the response is 201, and the stored file holds the request bytes from
    index 3 on: the missing separator is not noticed. *)
Theorem store_without_blank_line :
  forall (bytes_received : Z) (received directory : string) (fs : filesystem)
         (requestContents name : string),
    0 <= bytes_received <= BUFFER_SIZE ->
    c_string (recv_into buffer_init received) = Some requestContents ->
    getMethod requestContents = Ok "POST" ->
    getPath requestContents = Ok ("files/" ++ name) ->
    ~ occurs (CRLF ++ CRLF) requestContents ->
    3 <= size requestContents ->
    can_create (mkdir fs directory) (destination directory name) = true ->
    exists fs' : filesystem,
      storeFile fs ("files/" ++ name) directory requestContents = Ok (true, fs')
      /\ handleClient bytes_received received directory fs
         = Sent (HTTP201 ++ CRLF) fs'
      /\ read_file fs' (destination directory name)
         = Some (substring 3 (String.length requestContents - 3) requestContents).
Proof.
  intros n received directory fs s name Hn Hreq Hmethod Hpath Habsent Hlen Hopen.
  apply first_occurrence_none in Habsent.
  assert (Hstore :
    storeFile fs ("files/" ++ name) directory s =
      Ok (true, write_file
                  (write_file (mkdir fs directory) (destination directory name)
                     EmptyString)
                  (destination directory name)
                  (substring 3 (String.length s - 3) s))).
  { rewrite storeFile_files. unfold ofstream_open. rewrite Hopen.
    rewrite parseFromThisToEnd_absent by (assumption || (vm_compute; reflexivity)).
    change (size (CRLF ++ CRLF) - 1) with 3.
    destruct (size s <? 3) eqn:E; [apply Z.ltb_lt in E; lia|].
    reflexivity. }
  eexists. split; [exact Hstore|]. split.
  - rewrite (handleClient_post_files n received directory fs s Hn Hreq name)
      by assumption.
    now rewrite Hstore.
  - apply read_after_write. exact Hopen.
Qed.

(** C10 on a request that ends after its first line, with the directory
    [/tmp/d]: the file [/tmp/d/x] receives the request from its fourth
    byte on. *)
Lemma store_without_blank_line_witness :
  exists fs' : filesystem,
    storeFile fs_tmp "files/x" "/tmp/d" ("POST /files/x HTTP/1.1" ++ CRLF)
    = Ok (true, fs')
    /\ handleClient 24 ("POST /files/x HTTP/1.1" ++ CRLF) "/tmp/d" fs_tmp
       = Sent ("HTTP/1.1 201 Created" ++ CRLF ++ CRLF) fs'
    /\ read_file fs' "/tmp/d/x" = Some ("T /files/x HTTP/1.1" ++ CRLF).
Proof.
  apply (store_without_blank_line 24 ("POST /files/x HTTP/1.1" ++ CRLF) "/tmp/d"
           fs_tmp ("POST /files/x HTTP/1.1" ++ CRLF) "x").
  - vm_compute. split; discriminate.
  - vm_compute. reflexivity.
  - vm_compute. reflexivity.
  - vm_compute. reflexivity.
  - apply first_occurrence_none. vm_compute. reflexivity.
  - vm_compute. discriminate.
  - vm_compute. reflexivity.
Defined.

(** C10 as stated fails where the destination cannot be opened: [/tmp/d]
    is created by [mkdir], but [/tmp/d/a] does not exist, so the request
    for [files/a/b] is answered 500 and nothing is stored. *)
Lemma store_unopenable_counterexample :
  ~ occurs (CRLF ++ CRLF) ("POST /files/a/b HTTP/1.1" ++ CRLF)
  /\ 3 <= size ("POST /files/a/b HTTP/1.1" ++ CRLF)
  /\ getMethod ("POST /files/a/b HTTP/1.1" ++ CRLF) = Ok "POST"
  /\ getPath ("POST /files/a/b HTTP/1.1" ++ CRLF) = Ok "files/a/b"
  /\ storeFile fs_tmp "files/a/b" "/tmp/d" ("POST /files/a/b HTTP/1.1" ++ CRLF)
     = Ok (false, mkFilesystem ["/tmp/d"; "/tmp"] [])
  /\ handleClient 26 ("POST /files/a/b HTTP/1.1" ++ CRLF) "/tmp/d" fs_tmp
     = Sent (HTTP500 ++ CRLF) (mkFilesystem ["/tmp/d"; "/tmp"] []).
Proof.
  split; [apply first_occurrence_none; vm_compute; reflexivity|].
  split; [vm_compute; discriminate|].
  repeat split; vm_compute; reflexivity.
Qed.

(** ** Methods other than GET and POST, and other paths of POST *)

Section OtherRequests.

Lemma prefix_test (m s : string) :
  exists r, substr s 0 (size m) = Ok r /\ String.eqb r m = starts_with m s.
Proof.
  unfold substr. pose proof (size_nonneg s) as Hs.
  destruct (size s <? 0) eqn:E; [apply Z.ltb_lt in E; lia|].
  eexists. split; [reflexivity|].
  replace (Z.to_nat (Z.min (size m) (size s - 0)))
    with (Nat.min (String.length m) (String.length s)) by (unfold size; lia).
  simpl Z.to_nat. clear Hs E. revert s.
  induction m as [|c m IH]; intros s.
  - simpl. now rewrite substring_zero.
  - destruct s as [|d s]; simpl; [reflexivity|].
    rewrite IH. now rewrite Ascii.eqb_sym.
Qed.

(** A POST request whose path does not start with [files/] is answered
    501. *)
Variables (bytes_received : Z) (received directory : string) (fs : filesystem)
          (requestContents : string).
Hypothesis received_in_buffer : 0 <= bytes_received <= BUFFER_SIZE.
Hypothesis request_read :
  c_string (recv_into buffer_init received) = Some requestContents.

(** X12.  Every POST request whose path does not start with [files/] is
    answered with the 501 status line and a blank line; nothing is
    written. *)
Lemma post_elsewhere_not_implemented (path : string) :
  getMethod requestContents = Ok "POST" ->
  getPath requestContents = Ok path ->
  starts_with "files/" path = false ->
  handleClient bytes_received received directory fs = Sent (HTTP501 ++ CRLF) fs.
Proof.
  intros Hmethod Hpath Hprefix.
  enter_dispatch received_in_buffer request_read Hpath Hmethod.
  change (String.eqb "POST" "GET") with false.
  change (String.eqb "POST" "POST") with true. cbv iota.
  destruct (prefix_test "files/" path) as (prefix6 & H6 & Heq).
  change (size "files/") with 6 in H6. rewrite H6. cbn [bind].
  now rewrite Heq, Hprefix.
Qed.

End OtherRequests.

(** C1, what the code does.  The dispatch has a branch for GET and a
    branch for POST and no branch after them: for every request whose
    method is neither, [response] is still the empty string when it is
    sent.  The 501 the comment on line 276 promises for HEAD is only
    produced inside the POST branch ([post_elsewhere_not_implemented]). *)
Theorem other_methods_get_no_response :
  forall (bytes_received : Z) (received directory : string) (fs : filesystem)
         (requestContents path method : string),
    0 <= bytes_received <= BUFFER_SIZE ->
    c_string (recv_into buffer_init received) = Some requestContents ->
    getPath requestContents = Ok path ->
    getMethod requestContents = Ok method ->
    method <> "GET" -> method <> "POST" ->
    handleClient bytes_received received directory fs = Sent EmptyString fs.
Proof.
  intros n received directory fs s path method Hn Hreq Hpath Hmethod Hget Hpost.
  enter_dispatch Hn Hreq Hpath Hmethod.
  apply String.eqb_neq in Hget, Hpost. now rewrite Hget, Hpost.
Qed.

(** C1 on [HEAD / HTTP/1.1]: nothing is sent back, where the claim has a
    501. *)
Lemma other_methods_get_no_response_witness :
  getMethod (request "HEAD /" EmptyString) = Ok "HEAD"
  /\ handleClient (size (request "HEAD /" EmptyString))
                  (request "HEAD /" EmptyString) EmptyString fs_tmp
     = Sent EmptyString fs_tmp
  /\ Sent EmptyString fs_tmp <> Sent (HTTP501 ++ CRLF) fs_tmp.
Proof.
  split; [vm_compute; reflexivity|]. split; [|discriminate].
  apply (other_methods_get_no_response _ (request "HEAD /" EmptyString) EmptyString
           fs_tmp (request "HEAD /" EmptyString) EmptyString "HEAD").
  - vm_compute. split; discriminate.
  - vm_compute. reflexivity.
  - vm_compute. reflexivity.
  - vm_compute. reflexivity.
  - discriminate.
  - discriminate.
Defined.

(** ** The responses a request can get *)

Section ResponseKinds.

Lemma formulateEchoResponse_200 (path response : string) :
  formulateEchoResponse path = Ok response -> dispatched response.
Proof.
  unfold formulateEchoResponse. cbv zeta.
  destruct (substr ("/" ++ path) 6 npos) as [body|]; cbn [bind]; [|discriminate].
  intros H. injection H as <-. rewrite !append_assoc. constructor.
Qed.

Lemma formulateUserAgentResponse_200 (requestContents response : string) :
  formulateUserAgentResponse requestContents = Ok response -> dispatched response.
Proof.
  unfold formulateUserAgentResponse.
  destruct (parseBetween requestContents (CRLF ++ "User-Agent: ") CRLF) as [body|];
    cbn [bind]; [|discriminate].
  intros H. injection H as <-. rewrite !append_assoc. constructor.
Qed.

Lemma fetchFileContents_200 (fs : filesystem) (path contentType response : string) :
  fetchFileContents fs path contentType = Ok response -> dispatched response.
Proof.
  unfold fetchFileContents. cbv zeta.
  destruct (read_lines _ _ _) as [file contents].
  destruct (substr contents 0 _) as [body|]; cbn [bind]; [|discriminate].
  intros H. injection H as <-. rewrite !append_assoc. constructor.
Qed.

Lemma codeCraftersGetFile_kinds (fs : filesystem) (path directory response : string) :
  codeCraftersGetFile fs path directory = Ok response -> dispatched response.
Proof.
  unfold codeCraftersGetFile.
  destruct (substr path 6 (size path)) as [actualPath|]; cbn [bind]; [|discriminate].
  destruct (negb _).
  - intros H. injection H as <-. constructor.
  - apply fetchFileContents_200.
Qed.

(** Whatever [recv] returned within its bound, what [handleClient] sends
    is one of the responses of the dispatch. *)
Lemma handleClient_dispatched
    (bytes_received : Z) (received directory : string) (fs fs' : filesystem)
    (response : string) :
  bytes_received <= BUFFER_SIZE ->
  handleClient bytes_received received directory fs = Sent response fs' ->
  dispatched response.
Proof.
  intros Hn. unfold handleClient. cbv zeta.
  destruct (bytes_received <? 0) eqn:E0; [discriminate|].
  apply Z.ltb_ge in E0.
  rewrite to_size_t_small by (unfold BUFFER_SIZE, SIZE_MODULUS in *; lia).
  destruct (bytes_received >? BUFFER_SIZE) eqn:E; [apply Z.gtb_lt in E; lia | clear E].
  destruct (c_string _) as [requestContents|]; [|discriminate].
  destruct (getPath requestContents) as [path|]; cbn [bind]; [|discriminate].
  destruct (getMethod requestContents) as [method|]; cbn [bind]; [|discriminate].
  change (negb (String.eqb EmptyString EmptyString)) with false. cbv iota.
  destruct (String.eqb method "GET").
  - destruct (String.eqb path EmptyString).
    { intros H. injection H as <- _. constructor. }
    destruct (substr path 0 5) as [prefix5|]; cbn [bind]; [|discriminate].
    destruct (String.eqb prefix5 "echo/").
    { destruct (formulateEchoResponse path) as [r|] eqn:Er; cbn [bind]; [|discriminate].
      intros H. injection H as <- _. eapply formulateEchoResponse_200, Er. }
    destruct (substr path 0 10) as [prefix10|]; cbn [bind]; [|discriminate].
    destruct (String.eqb prefix10 "user-agent").
    { destruct (formulateUserAgentResponse requestContents) as [r|] eqn:Er;
        cbn [bind]; [|discriminate].
      intros H. injection H as <- _. eapply formulateUserAgentResponse_200, Er. }
    destruct (substr path 0 6) as [prefix6|]; cbn [bind]; [|discriminate].
    destruct (String.eqb prefix6 "files/").
    { destruct (codeCraftersGetFile fs path directory) as [r|] eqn:Er;
        cbn [bind]; [|discriminate].
      intros H. injection H as <- _. eapply codeCraftersGetFile_kinds, Er. }
    destruct (isValidFilePath fs path).
    + destruct (getFileExtension path) as [extension|]; cbn [bind]; [|discriminate].
      destruct (fetchFileContents fs path (defaultContentType extension))
        as [r|] eqn:Er; cbn [bind]; [|discriminate].
      intros H. injection H as <- _. eapply fetchFileContents_200, Er.
    + intros H. injection H as <- _. constructor.
  - destruct (String.eqb method "POST").
    + destruct (substr path 0 6) as [prefix6|]; cbn [bind]; [|discriminate].
      destruct (String.eqb prefix6 "files/").
      * destruct (storeFile fs path directory requestContents) as [[saved fs1]|];
          cbn [bind]; [|discriminate].
        destruct saved; cbn [negb]; intros H; injection H as <- _; constructor.
      * intros H. injection H as <- _. constructor.
    + intros H. injection H as <- _. constructor.
Qed.

Lemma dispatched_not_414 : ~ dispatched (HTTP414 ++ CRLF).
Proof.
  intros H. inversion H as [E | rest E | E | E | E | E]; discriminate E.
Qed.

End ResponseKinds.

(** C7, what the code does.  [recv] is given the size of the buffer and
    never returns more, so the test [bytes_received > buffer.size()] on
    line 233 is never positive: whatever the client sent, the connection
    does not end with the 414 response. *)
Theorem oversized_request_never_answered_414 :
  forall (bytes_received : Z) (received directory : string) (fs fs' : filesystem),
    bytes_received <= BUFFER_SIZE ->
    handleClient bytes_received received directory fs <> Sent (HTTP414 ++ CRLF) fs'.
Proof.
  intros n received directory fs fs' Hn H.
  apply dispatched_not_414.
  eapply handleClient_dispatched; [exact Hn | exact H].
Qed.

(** C7 on a request of 1114 bytes, of which [recv] stores and reports
    1024: no 414, and the buffer, which holds no NUL, is read past its
    end. *)
Lemma oversized_request_never_answered_414_witness :
  BUFFER_SIZE < size oversized_request
  /\ handleClient BUFFER_SIZE oversized_request EmptyString fs_tmp
     <> Sent (HTTP414 ++ CRLF) fs_tmp
  /\ handleClient BUFFER_SIZE oversized_request EmptyString fs_tmp = BufferOverread.
Proof.
  split; [vm_compute; reflexivity|]. split.
  - apply (oversized_request_never_answered_414 BUFFER_SIZE oversized_request
             EmptyString fs_tmp fs_tmp).
    unfold BUFFER_SIZE. lia.
  - vm_compute. reflexivity.
Defined.

(** Had [recv] reported more bytes than the buffer holds, the response
    would have been the 414 status line and a blank line, whatever the
    method and the path, provided the request could be parsed at all. *)
Lemma reported_overflow_answered_414
    (bytes_received : Z) (received directory : string) (fs : filesystem)
    (requestContents path method : string) :
  BUFFER_SIZE < bytes_received < SIZE_MODULUS ->
  c_string (recv_into buffer_init received) = Some requestContents ->
  getPath requestContents = Ok path ->
  getMethod requestContents = Ok method ->
  handleClient bytes_received received directory fs = Sent (HTTP414 ++ CRLF) fs.
Proof.
  intros Hn Hreq Hpath Hmethod. unfold handleClient. cbv zeta.
  destruct (bytes_received <? 0) eqn:E;
    [apply Z.ltb_lt in E; unfold BUFFER_SIZE in *; lia | clear E].
  rewrite to_size_t_small by (unfold BUFFER_SIZE in *; lia).
  destruct (bytes_received >? BUFFER_SIZE) eqn:E;
    [clear E | rewrite Z.gtb_ltb in E; apply Z.ltb_ge in E; lia].
  rewrite Hreq, Hpath. cbn [bind]. rewrite Hmethod. cbn [bind].
  reflexivity.
Qed.

(** C2, what the code does.  With the first marker absent, [find] returns
    [npos] and [pos + i] wraps around to [i - 1]: both functions throw
    when the string is shorter than that, and otherwise go on from index
    [i - 1] of the string, so that [parseFromThisToEnd] returns the string
    from there on and [parseBetween] a part of it that starts there.
    Neither returns the empty string for want of the marker. *)
Theorem absent_marker_is_not_handled :
  forall s firstMarker secondMarker : string,
    ~ occurs firstMarker s ->
    size firstMarker < 2 ^ 31 ->
    size s <= npos ->
    parseFromThisToEnd s firstMarker =
      (if size s <? size firstMarker - 1 then OutOfRange
       else Ok (substring (String.length firstMarker - 1)
                  (String.length s - (String.length firstMarker - 1)) s))
    /\ parseBetween s firstMarker secondMarker =
         (if size s <? size firstMarker - 1 then OutOfRange
          else substr s (size firstMarker - 1)
                 (find (substring (String.length firstMarker - 1)
                           (String.length s - (String.length firstMarker - 1)) s)
                       secondMarker)).
Proof.
  intros s m1 m2 Habsent Hm Hs. apply first_occurrence_none in Habsent. split.
  - now apply parseFromThisToEnd_absent.
  - now apply parseBetween_absent.
Qed.

(** C2 on an empty request, whose path cannot be parsed (the thread, and
    with it the process, ends), and on a POST without blank line, whose
    body is taken from index 3 of the request. *)
Lemma absent_marker_is_not_handled_witness :
  (~ occurs " /" EmptyString
   /\ getPath EmptyString = OutOfRange
   /\ handleClient 0 EmptyString EmptyString fs_tmp = Terminated)
  /\ (~ occurs (CRLF ++ CRLF) ("POST /files/x HTTP/1.1" ++ CRLF)
      /\ parseFromThisToEnd ("POST /files/x HTTP/1.1" ++ CRLF) (CRLF ++ CRLF)
         = Ok ("T /files/x HTTP/1.1" ++ CRLF)).
Proof.
  assert (H1 : ~ occurs " /" EmptyString)
    by (apply first_occurrence_none; vm_compute; reflexivity).
  assert (H2 : ~ occurs (CRLF ++ CRLF) ("POST /files/x HTTP/1.1" ++ CRLF))
    by (apply first_occurrence_none; vm_compute; reflexivity).
  split; split.
  - exact H1.
  - split; [|vm_compute; reflexivity].
    unfold getPath.
    destruct (absent_marker_is_not_handled EmptyString " /" " " H1) as [_ ->];
      [vm_compute; reflexivity | vm_compute; discriminate | reflexivity].
  - exact H2.
  - destruct (absent_marker_is_not_handled ("POST /files/x HTTP/1.1" ++ CRLF)
                (CRLF ++ CRLF) EmptyString H2) as [-> _];
      [vm_compute; reflexivity | vm_compute; discriminate | reflexivity].
Defined.

(** C8, what the code does.  For a GET of [user-agent] whose bytes hold
    no [User-Agent] marker, the body of the 200 response is a run of bytes
    of the request itself that starts at index 13 (the marker is 14 bytes
    long), and [Content-Length] is the length of that run. *)
Theorem user_agent_absent_body :
  forall (bytes_received : Z) (received directory : string) (fs : filesystem)
         (requestContents tail : string),
    0 <= bytes_received <= BUFFER_SIZE ->
    c_string (recv_into buffer_init received) = Some requestContents ->
    getMethod requestContents = Ok "GET" ->
    getPath requestContents = Ok ("user-agent" ++ tail) ->
    ~ occurs (CRLF ++ "User-Agent: ") requestContents ->
    13 <= size requestContents ->
    exists k : nat,
      handleClient bytes_received received directory fs =
        Sent (HTTP200 ++ "Content-Type: text/plain" ++ CRLF
                ++ "Content-Length: "
                ++ to_string (size (substring 13 k requestContents)) ++ CRLF
                ++ CRLF ++ substring 13 k requestContents) fs.
Proof.
  intros n received directory fs s tail Hn Hreq Hmethod Hpath Habsent Hlen.
  apply first_occurrence_none in Habsent.
  pose proof (request_size _ _ Hreq) as Hsize.
  assert (Hbody : exists k,
    parseBetween s (CRLF ++ "User-Agent: ") CRLF = Ok (substring 13 k s)).
  { rewrite parseBetween_absent.
    - change (size (CRLF ++ "User-Agent: ") - 1) with 13.
      destruct (size s <? 13) eqn:E; [apply Z.ltb_lt in E; lia|].
      unfold substr. destruct (size s <? 13); [discriminate|]. eauto.
    - assumption.
    - vm_compute. reflexivity.
    - unfold BUFFER_SIZE, npos, SIZE_MODULUS in *. lia. }
  destruct Hbody as [k Hbody]. exists k.
  enter_dispatch Hn Hreq Hpath Hmethod.
  change (String.eqb "GET" "GET") with true. cbv iota.
  change (String.eqb ("user-agent" ++ tail) EmptyString) with false. cbv iota.
  change ("user-agent" ++ tail) with ("user-" ++ "agent" ++ tail) at 1.
  change 5 with (size "user-"). rewrite substr_start. cbn [bind].
  change (String.eqb "user-" "echo/") with false. cbv iota.
  change 10 with (size "user-agent"). rewrite substr_start. cbn [bind].
  change (String.eqb "user-agent" "user-agent") with true. cbv iota.
  unfold formulateUserAgentResponse. rewrite Hbody. cbn [bind].
  now rewrite !append_assoc.
Qed.

(** C8 on [GET /user-agent HTTP/1.1] with no header at all: the body is
    [nt HTTP/1.1], eleven bytes cut out of the request line. *)
Lemma user_agent_absent_body_witness :
  ~ occurs (CRLF ++ "User-Agent: ") (request "GET /user-agent" EmptyString)
  /\ (exists k : nat,
        handleClient (size (request "GET /user-agent" EmptyString))
                     (request "GET /user-agent" EmptyString) EmptyString fs_tmp
        = Sent (HTTP200 ++ "Content-Type: text/plain" ++ CRLF
                  ++ "Content-Length: "
                  ++ to_string (size (substring 13 k
                                        (request "GET /user-agent" EmptyString)))
                  ++ CRLF ++ CRLF
                  ++ substring 13 k (request "GET /user-agent" EmptyString))
               fs_tmp)
  /\ handleClient (size (request "GET /user-agent" EmptyString))
                  (request "GET /user-agent" EmptyString) EmptyString fs_tmp
     = Sent ("HTTP/1.1 200 OK" ++ CRLF ++ "Content-Type: text/plain" ++ CRLF
               ++ "Content-Length: 11" ++ CRLF ++ CRLF ++ "nt HTTP/1.1") fs_tmp.
Proof.
  split; [apply first_occurrence_none; vm_compute; reflexivity|].
  split; [|vm_compute; reflexivity].
  apply (user_agent_absent_body _ (request "GET /user-agent" EmptyString)
           EmptyString fs_tmp (request "GET /user-agent" EmptyString) EmptyString).
  - vm_compute. split; discriminate.
  - vm_compute. reflexivity.
  - vm_compute. reflexivity.
  - vm_compute. reflexivity.
  - apply first_occurrence_none. vm_compute. reflexivity.
  - vm_compute. discriminate.
Defined.

(** C6, what the code does.  With the directory [/tmp/d], a POST of
    [hello] to [/files/test.txt] stores it in [/tmp/d/test.txt], as
    [storeFile] joins directory and name with a slash; the GET of
    [/files/test.txt] that follows looks for [/tmp/dtest.txt], as
    [codeCraftersGetFile] joins them with nothing, and is answered 404. *)
Theorem store_then_fetch_loses_file :
  exists fs' : filesystem,
    handleClient (size (request "POST /files/test.txt" "hello"))
                 (request "POST /files/test.txt" "hello") "/tmp/d" fs_tmp
    = Sent (HTTP201 ++ CRLF) fs'
    /\ read_file fs' "/tmp/d/test.txt" = Some "hello"
    /\ handleClient (size (request "GET /files/test.txt" EmptyString))
                    (request "GET /files/test.txt" EmptyString) "/tmp/d" fs'
       = Sent (HTTP404 ++ CRLF) fs'.
Proof.
  eexists. split.
  - vm_compute. reflexivity.
  - split.
    + vm_compute. reflexivity.
    + vm_compute. reflexivity.
Qed.

(** The same two requests with the directory [/tmp/d/]: the body comes
    back. *)
Lemma store_then_fetch_with_trailing_slash :
  exists fs' : filesystem,
    handleClient (size (request "POST /files/test.txt" "hello"))
                 (request "POST /files/test.txt" "hello") "/tmp/d/" fs_tmp
    = Sent (HTTP201 ++ CRLF) fs'
    /\ handleClient (size (request "GET /files/test.txt" EmptyString))
                    (request "GET /files/test.txt" EmptyString) "/tmp/d/" fs'
       = Sent ("HTTP/1.1 200 OK" ++ CRLF
                 ++ "Content-Type: application/octet-stream" ++ CRLF
                 ++ "Content-Length: 5" ++ CRLF ++ CRLF ++ "hello") fs'.
Proof.
  eexists. split.
  - vm_compute. reflexivity.
  - vm_compute. reflexivity.
Qed.

(** Without a configured directory the file is stored in the working
    directory, and the GET is refused because its path has no slash. *)
Lemma store_then_fetch_without_directory :
  exists fs' : filesystem,
    handleClient (size (request "POST /files/test.txt" "hello"))
                 (request "POST /files/test.txt" "hello") EmptyString fs_tmp
    = Sent (HTTP201 ++ CRLF) fs'
    /\ read_file fs' "test.txt" = Some "hello"
    /\ handleClient (size (request "GET /files/test.txt" EmptyString))
                    (request "GET /files/test.txt" EmptyString) EmptyString fs'
       = Sent (HTTP404 ++ CRLF) fs'.
Proof.
  eexists. split.
  - vm_compute. reflexivity.
  - split.
    + vm_compute. reflexivity.
    + vm_compute. reflexivity.
Qed.

(** ** Store, then fetch, under a directory that ends with a slash *)

Section RoundTrip.

Lemma contains_char_app (c : ascii) (a b : string) :
  contains_char c (a ++ String c b) = true.
Proof.
  induction a as [|x a IH]; simpl.
  - now rewrite Ascii.eqb_refl.
  - rewrite IH. apply orb_true_r.
Qed.

(** When [storeFile] has taken [B] for the body of a POST to
    [files/<name>] and could open its destination, a GET of
    [files/<name>] returns [B], the configured directory being [d/]: the
    path written, [d//<name>], and the path read, [d/<name>], lead to the
    same file. *)
Lemma round_trip_of_stored_body
    (n1 n2 : Z) (received1 received2 d name B : string) (fs : filesystem)
    (post get : string) :
  0 <= n1 <= BUFFER_SIZE -> 0 <= n2 <= BUFFER_SIZE ->
  c_string (recv_into buffer_init received1) = Some post ->
  c_string (recv_into buffer_init received2) = Some get ->
  getMethod post = Ok "POST" -> getPath post = Ok ("files/" ++ name) ->
  parseFromThisToEnd post (CRLF ++ CRLF) = Ok B ->
  getMethod get = Ok "GET" -> getPath get = Ok ("files/" ++ name) ->
  can_create (mkdir fs (d ++ "/")) (destination (d ++ "/") name) = true ->
  size ((d ++ "/") ++ name) < 2 ^ 31 ->
  exists fs',
    handleClient n1 received1 (d ++ "/") fs = Sent (HTTP201 ++ CRLF) fs'
    /\ handleClient n2 received2 (d ++ "/") fs' =
         Sent (HTTP200 ++ "Content-Type: application/octet-stream" ++ CRLF
                 ++ "Content-Length: " ++ to_string (size B) ++ CRLF
                 ++ CRLF ++ B) fs'.
Proof.
  intros Hn1 Hn2 Hpost Hget Hm1 Hp1 Hbody Hm2 Hp2 Hopen Hsize.
  assert (Hdest : destination (d ++ "/") name = d ++ "//" ++ name).
  { unfold destination.
    replace (String.eqb (d ++ "/") EmptyString) with false
      by (now destruct d).
    now rewrite append_assoc. }
  eexists. split.
  - rewrite (handleClient_post_files n1 received1 (d ++ "/") fs post Hn1 Hpost name)
      by assumption.
    rewrite storeFile_files. unfold ofstream_open. rewrite Hopen, Hbody.
    cbn [bind]. reflexivity.
  - rewrite (handleClient_get_files n2 received2 (d ++ "/") _ get Hn2 Hget name)
      by assumption.
    rewrite codeCraftersGetFile_files.
    assert (Hread : read_file
              (write_file (write_file (mkdir fs (d ++ "/"))
                             (destination (d ++ "/") name) EmptyString)
                 (destination (d ++ "/") name) B)
              ((d ++ "/") ++ name) = Some B).
    { rewrite append_assoc, <- read_file_double_slash, <- Hdest.
      apply read_after_write. exact Hopen. }
    assert (Hvalid : isValidFilePath
              (write_file (write_file (mkdir fs (d ++ "/"))
                             (destination (d ++ "/") name) EmptyString)
                 (destination (d ++ "/") name) B)
              ((d ++ "/") ++ name) = true).
    { apply isValidFilePath_iff; [exact Hsize|]. split; [|eauto].
      rewrite append_assoc. apply contains_char_app. }
    rewrite Hvalid. cbn [negb].
    rewrite (fetchFileContents_readable _ _ _ B Hread); [reflexivity|].
    pose proof (request_size _ _ Hpost) as Hs.
    assert (size B <= size post)
      by (unfold parseFromThisToEnd in Hbody; eapply substr_size_le; exact Hbody).
    unfold BUFFER_SIZE, SIZE_MODULUS in *. lia.
Qed.

End RoundTrip.

(** * Further properties of the parser and of the dispatch *)

(** ** Markers that are present *)

Section PresentMarker.

Lemma append_inv_length (a a' x x' : string) :
  a ++ x = a' ++ x' -> String.length a = String.length a' -> a = a' /\ x = x'.
Proof.
  revert a'. induction a as [|c a IH]; intros [|c' a'] H Hlen;
    simpl in Hlen; try discriminate.
  - now split.
  - simpl in H. injection H as -> H. injection Hlen as Hlen.
    destruct (IH a' H Hlen) as [-> ->]. now split.
Qed.

(** [find] returns the position of an occurrence. *)
Lemma first_occurrence_split (m s : string) (k : nat) :
  first_occurrence m s = Some k ->
  exists a b, s = a ++ m ++ b /\ String.length a = k.
Proof.
  revert k. induction s as [|c s IH]; intros k H; simpl in H.
  - destruct (starts_with m EmptyString) eqn:E; [|discriminate].
    injection H as <-. destruct (starts_with_inv _ _ E) as [b Hb].
    now exists EmptyString, b.
  - destruct (starts_with m (String c s)) eqn:E.
    + injection H as <-. destruct (starts_with_inv _ _ E) as [b Hb].
      now exists EmptyString, b.
    + destruct (first_occurrence m s) as [j|]; [|discriminate].
      injection H as <-. destruct (IH j eq_refl) as (a & b & -> & <-).
      now exists (String c a), b.
Qed.

(** ... and no occurrence stands before it. *)
Lemma first_occurrence_le (m a b : string) :
  exists k, first_occurrence m (a ++ m ++ b) = Some k /\ (k <= String.length a)%nat.
Proof.
  induction a as [|c a IH].
  - exists O. split; [|simpl; lia].
    apply first_occurrence_prefix. apply (starts_with_app m b).
  - destruct IH as (k & Hk & Hle).
    change (first_occurrence m (String c a ++ m ++ b))
      with (if starts_with m (String c (a ++ m ++ b)) then Some O
            else option_map S (first_occurrence m (a ++ m ++ b))).
    destruct (starts_with m (String c (a ++ m ++ b))).
    + exists O. split; [reflexivity | simpl; lia].
    + rewrite Hk. exists (S k). split; [reflexivity | simpl; lia].
Qed.

Lemma first_at_found (m s a b : string) :
  first_at m s a b -> first_occurrence m s = Some (String.length a).
Proof.
  intros [Hs Hmin]. destruct (first_occurrence_le m a b) as (k & Hk & Hle).
  rewrite <- Hs in Hk. rewrite Hk. f_equal.
  destruct (first_occurrence_split _ _ _ Hk) as (a' & b' & Hs' & Hlen).
  specialize (Hmin a' b' Hs'). lia.
Qed.

Lemma found_first_at (m a b : string) :
  first_occurrence m (a ++ m ++ b) = Some (String.length a) ->
  first_at m (a ++ m ++ b) a b.
Proof.
  intros H. split; [reflexivity|]. intros a' b' Hs.
  destruct (first_occurrence_le m a' b') as (k & Hk & Hle).
  rewrite <- Hs, H in Hk. injection Hk as <-. exact Hle.
Qed.

(** [parseFromThisToEnd] when the marker is found. *)
Lemma parseFromThisToEnd_at (a m b : string) :
  first_occurrence m (a ++ m ++ b) = Some (String.length a) ->
  size m < 2 ^ 31 -> size (a ++ m ++ b) < SIZE_MODULUS ->
  parseFromThisToEnd (a ++ m ++ b) m = Ok b.
Proof.
  intros Hfind Hm Hs. unfold parseFromThisToEnd, find. cbv zeta.
  rewrite Hfind. unfold position.
  pose proof (size_nonneg a). pose proof (size_nonneg m). pose proof (size_nonneg b).
  rewrite !size_append in Hs.
  rewrite to_int_small by lia.
  change (Z.of_nat (String.length a)) with (size a).
  rewrite to_size_t_small by lia.
  rewrite <- size_append, <- append_assoc.
  apply substr_to_end. rewrite !size_append. lia.
Qed.

(** [parseBetween] when both markers are found. *)
Lemma parseBetween_at (a m1 v m2 t : string) :
  first_occurrence m1 (a ++ m1 ++ v ++ m2 ++ t) = Some (String.length a) ->
  first_occurrence m2 (v ++ m2 ++ t) = Some (String.length v) ->
  size m1 < 2 ^ 31 -> size (a ++ m1 ++ v ++ m2 ++ t) < SIZE_MODULUS ->
  parseBetween (a ++ m1 ++ v ++ m2 ++ t) m1 m2 = Ok v.
Proof.
  intros H1 H2 Hm Hs. unfold parseBetween, find. cbv zeta.
  rewrite H1. unfold position.
  pose proof (size_nonneg a). pose proof (size_nonneg m1). pose proof (size_nonneg v).
  pose proof (size_nonneg m2). pose proof (size_nonneg t).
  rewrite !size_append in Hs.
  rewrite to_int_small by lia.
  change (Z.of_nat (String.length a)) with (size a).
  rewrite to_size_t_small by lia.
  rewrite <- size_append, <- (append_assoc a m1).
  rewrite substr_to_end by (rewrite !size_append; unfold npos; lia).
  cbn [bind]. rewrite H2.
  change (Z.of_nat (String.length v)) with (size v).
  apply substr_middle. rewrite size_append. lia.
Qed.

(** [parseBetween] when only the first marker is found: everything after
    it. *)
Lemma parseBetween_open (a m1 rest m2 : string) :
  first_occurrence m1 (a ++ m1 ++ rest) = Some (String.length a) ->
  first_occurrence m2 rest = None ->
  size m1 < 2 ^ 31 -> size (a ++ m1 ++ rest) < SIZE_MODULUS ->
  parseBetween (a ++ m1 ++ rest) m1 m2 = Ok rest.
Proof.
  intros H1 H2 Hm Hs. unfold parseBetween, find. cbv zeta.
  rewrite H1. unfold position.
  pose proof (size_nonneg a). pose proof (size_nonneg m1). pose proof (size_nonneg rest).
  rewrite !size_append in Hs.
  rewrite to_int_small by lia.
  change (Z.of_nat (String.length a)) with (size a).
  rewrite to_size_t_small by lia.
  rewrite <- size_append, <- (append_assoc a m1).
  rewrite substr_to_end by (unfold npos; lia).
  cbn [bind]. rewrite H2.
  apply substr_to_end. unfold npos. lia.
Qed.

End PresentMarker.

(** X1.  [parseBetween] returns what stands between the first occurrence of
    the first marker and the first occurrence of the second marker after
    it, and everything after the first marker when the second one does
    not follow. *)
Theorem parseBetween_between :
  forall s firstMarker secondMarker a rest : string,
    first_at firstMarker s a rest ->
    size firstMarker < 2 ^ 31 ->
    size s < SIZE_MODULUS ->
    (forall v t, first_at secondMarker rest v t ->
                 parseBetween s firstMarker secondMarker = Ok v)
    /\ (~ occurs secondMarker rest ->
        parseBetween s firstMarker secondMarker = Ok rest).
Proof.
  intros s m1 m2 a rest Hfirst Hm Hs.
  pose proof (first_at_found _ _ _ _ Hfirst) as H1.
  destruct Hfirst as [-> _]. split.
  - intros v t Hsecond. pose proof (first_at_found _ _ _ _ Hsecond) as H2.
    destruct Hsecond as [-> _]. now apply parseBetween_at.
  - intros Habsent. apply first_occurrence_none in Habsent.
    now apply parseBetween_open.
Qed.

(** [parseBetween_between] on a header line, and on a request line that
    ends after the path. *)
Lemma parseBetween_between_witness :
  parseBetween ("Host: a" ++ CRLF ++ "Accept: b" ++ CRLF) ": " CRLF = Ok "a"
  /\ parseBetween "GET /index.html" " /" " " = Ok "index.html".
Proof.
  split.
  - destruct (parseBetween_between
                ("Host: a" ++ CRLF ++ "Accept: b" ++ CRLF) ": " CRLF
                "Host" ("a" ++ CRLF ++ "Accept: b" ++ CRLF)) as [Hfound _].
    + apply (found_first_at ": " "Host"). vm_compute. reflexivity.
    + vm_compute. reflexivity.
    + vm_compute. reflexivity.
    + apply (Hfound "a" ("Accept: b" ++ CRLF)).
      apply (found_first_at CRLF "a"). vm_compute. reflexivity.
  - destruct (parseBetween_between "GET /index.html" " /" " " "GET" "index.html")
      as [_ Hopen].
    + apply (found_first_at " /" "GET"). vm_compute. reflexivity.
    + vm_compute. reflexivity.
    + vm_compute. reflexivity.
    + apply Hopen. apply first_occurrence_none. vm_compute. reflexivity.
Defined.

(** X2.  [parseFromThisToEnd] returns everything that follows the first
    occurrence of the marker. *)
Theorem parseFromThisToEnd_after :
  forall s firstMarker a b : string,
    first_at firstMarker s a b ->
    size firstMarker < 2 ^ 31 ->
    size s < SIZE_MODULUS ->
    parseFromThisToEnd s firstMarker = Ok b.
Proof.
  intros s m a b Hfirst Hm Hs.
  pose proof (first_at_found _ _ _ _ Hfirst) as H1.
  destruct Hfirst as [-> _]. now apply parseFromThisToEnd_at.
Qed.

(** [parseFromThisToEnd_after] on a body that holds a blank line itself:
    the body starts after the first one. *)
Lemma parseFromThisToEnd_after_witness :
  parseFromThisToEnd
    ("POST /files/x HTTP/1.1" ++ CRLF ++ CRLF ++ "one" ++ CRLF ++ CRLF ++ "two")
    (CRLF ++ CRLF)
  = Ok ("one" ++ CRLF ++ CRLF ++ "two").
Proof.
  apply (parseFromThisToEnd_after _ (CRLF ++ CRLF) "POST /files/x HTTP/1.1").
  - apply (found_first_at (CRLF ++ CRLF) "POST /files/x HTTP/1.1").
    vm_compute. reflexivity.
  - vm_compute. reflexivity.
  - vm_compute. reflexivity.
Defined.

(** ** What can throw *)

Section Throwing.

Lemma append_empty (s : string) : s ++ EmptyString = s.
Proof. induction s as [|c s IH]; simpl; [reflexivity | now rewrite IH]. Qed.

Lemma substr_throws (s : string) (pos count : Z) :
  substr s pos count = OutOfRange <-> size s < pos.
Proof.
  unfold substr. destruct (size s <? pos) eqn:E.
  - apply Z.ltb_lt in E. tauto.
  - apply Z.ltb_ge in E. split; [discriminate | lia].
Qed.

Lemma substr_ok (s : string) (pos count : Z) :
  pos <= size s -> exists r, substr s pos count = Ok r.
Proof.
  intros H. destruct (substr s pos count) as [r|] eqn:E; [eauto|].
  apply substr_throws in E. lia.
Qed.

(** Both calls of [substr] in [parseBetween] start at the same position,
    so it throws exactly when that position is past the end. *)
Lemma parseBetween_throws (s m1 m2 : string) :
  parseBetween s m1 m2 = OutOfRange <->
  size s < to_size_t (find s m1 + to_int (size m1)).
Proof.
  unfold parseBetween. cbv zeta.
  destruct (substr s (to_size_t (find s m1 + to_int (size m1))) npos) as [suffix|] eqn:E;
    cbn [bind].
  - split.
    + intros H. now apply substr_throws in H.
    + intros H. apply (substr_throws s _ npos) in H. congruence.
  - apply substr_throws in E. split; [intros _; exact E | reflexivity].
Qed.

Lemma parseFromThisToEnd_throws (s m : string) :
  parseFromThisToEnd s m = OutOfRange <->
  size s < to_size_t (find s m + to_int (size m)).
Proof. unfold parseFromThisToEnd. cbv zeta. apply substr_throws. Qed.

(** Where parsing starts when the first marker is found: right after
    it, inside the string. *)
Lemma found_marker_start (s m : string) (k : nat) :
  first_occurrence m s = Some k -> size m < 2 ^ 31 -> size s < SIZE_MODULUS ->
  to_size_t (find s m + to_int (size m)) = Z.of_nat k + size m
  /\ Z.of_nat k + size m <= size s.
Proof.
  intros Hfind Hm Hs.
  destruct (first_occurrence_split _ _ _ Hfind) as (a & b & -> & <-).
  unfold find. rewrite Hfind. unfold position.
  rewrite !size_append in *.
  pose proof (size_nonneg a). pose proof (size_nonneg m). pose proof (size_nonneg b).
  rewrite to_int_small by lia.
  change (Z.of_nat (String.length a)) with (size a).
  rewrite to_size_t_small by lia. lia.
Qed.

(** With a marker of [i] bytes, parsing cannot throw on a string of at
    least [i - 1] bytes, whether the marker occurs or not. *)
Lemma parse_start_inside (s m : string) :
  size m < 2 ^ 31 -> size s < SIZE_MODULUS -> size m - 1 <= size s ->
  to_size_t (find s m + to_int (size m)) <= size s.
Proof.
  intros Hm Hs Hlen. destruct (first_occurrence m s) as [k|] eqn:E.
  - destruct (found_marker_start _ _ _ E Hm Hs) as [-> H]. exact H.
  - rewrite absent_marker_start by assumption.
    pose proof (absent_marker_nonempty _ _ E). unfold size in *. lia.
Qed.

Lemma substring_start_prefix (s : string) (count : nat) :
  exists b, s = substring 0 count s ++ b.
Proof.
  revert count. induction s as [|c s IH]; intros [|count]; simpl.
  - now exists EmptyString.
  - now exists EmptyString.
  - now exists (String c s).
  - destruct (IH count) as [b Hb]. exists b. now rewrite <- Hb.
Qed.

Lemma contains_char_split (c : ascii) (a : string) :
  contains_char c a = true -> exists a1 a2, a = a1 ++ String c a2.
Proof.
  induction a as [|d a IH]; simpl; intros H; [discriminate|].
  destruct (Ascii.eqb d c) eqn:E.
  - apply Ascii.eqb_eq in E. subst d. now exists EmptyString, a.
  - destruct (IH H) as (a1 & a2 & ->). now exists (String d a1), a2.
Qed.

(** No [c] stands before the first [c]. *)
Lemma no_char_before_first (c : ascii) (a b : string) :
  first_occurrence (String c EmptyString) (a ++ String c b) = Some (String.length a) ->
  contains_char c a = false.
Proof.
  intros H. destruct (contains_char c a) eqn:E; [|reflexivity].
  destruct (contains_char_split _ _ E) as (a1 & a2 & ->).
  destruct (first_occurrence_le (String c EmptyString) a1 (a2 ++ String c b))
    as (k & Hk & Hle).
  replace ((a1 ++ String c a2) ++ String c b)
    with (a1 ++ String c EmptyString ++ a2 ++ String c b) in H
    by (now rewrite append_assoc).
  rewrite H in Hk. injection Hk as <-.
  rewrite length_append in Hle. simpl in Hle. lia.
Qed.

Lemma first_occurrence_char_none (c : ascii) (s : string) :
  first_occurrence (String c EmptyString) s = None -> contains_char c s = false.
Proof.
  intros H. destruct (contains_char c s) eqn:E; [|reflexivity].
  destruct (contains_char_split _ _ E) as (a1 & a2 & ->).
  apply first_occurrence_none in H. exfalso. apply H.
  now exists a1, a2.
Qed.

(** [getMethod] in full: the part of the request before its first space,
    the whole request when it has none. *)
Lemma getMethod_result (s : string) :
  size s < SIZE_MODULUS ->
  exists method rest,
    getMethod s = Ok method /\ s = method ++ rest
    /\ contains_char " " method = false
    /\ (rest = EmptyString \/ exists rest', rest = String " " rest').
Proof.
  intros Hs. unfold getMethod, parseBetween. cbv zeta.
  assert (Hfind : find s EmptyString = 0) by (unfold find; now destruct s).
  rewrite Hfind.
  change (to_size_t (0 + to_int (size EmptyString))) with (size EmptyString).
  change s with (EmptyString ++ s) at 1 3.
  rewrite substr_to_end by (unfold npos; lia).
  cbn [bind]. change (EmptyString ++ s) with s. unfold find.
  destruct (first_occurrence " " s) as [k|] eqn:E; unfold position.
  - destruct (first_occurrence_split _ _ _ E) as (a & b & -> & <-).
    exists a, (String " " b). change (Z.of_nat (String.length a)) with (size a).
    change (size EmptyString) with 0. rewrite substr_start.
    repeat split; [|right; now exists b].
    now apply (no_char_before_first " " a b).
  - exists s, EmptyString. change (size EmptyString) with 0.
    change s with (EmptyString ++ s) at 1.
    change 0 with (size EmptyString).
    rewrite substr_to_end by (unfold npos; lia).
    repeat split.
    + now rewrite append_empty.
    + now apply first_occurrence_char_none.
    + now left.
Qed.

End Throwing.

(** ** Requests that are answered *)

Section Answered.

Lemma length_substring_rest (s : string) (k n : nat) :
  (String.length (substring k n s) + k <= String.length s)%nat \/
  (String.length s < k)%nat /\ substring k n s = EmptyString.
Proof.
  revert k n. induction s as [|c s IH]; intros [|k] [|n]; simpl;
    try (left; lia); try (right; split; [lia | reflexivity]).
  - left. pose proof (length_substring_le s 0 n). lia.
  - destruct (IH k 0%nat) as [H | [H1 H2]]; [left; lia | right; split; [lia | exact H2]].
  - destruct (IH k (S n)) as [H | [H1 H2]]; [left; lia | right; split; [lia | exact H2]].
Qed.

(** [getPath] throws on the empty request and on no other. *)
Lemma getPath_throws (s : string) :
  size s < SIZE_MODULUS -> getPath s = OutOfRange <-> s = EmptyString.
Proof.
  intros Hs. unfold getPath. rewrite parseBetween_throws.
  destruct (first_occurrence " /" s) as [k|] eqn:E.
  - destruct (found_marker_start _ _ _ E ltac:(vm_compute; reflexivity) Hs) as [-> H].
    split; [lia|]. intros ->. discriminate E.
  - rewrite absent_marker_start by (assumption || (vm_compute; reflexivity)).
    change (Z.of_nat (String.length " /" - 1)) with 1.
    destruct s as [|c s].
    + split; [reflexivity | intros _; vm_compute; reflexivity].
    + rewrite size_String. pose proof (size_nonneg s).
      split; [lia | discriminate].
Qed.

(** Where the path was cut out of the request. *)
Lemma getPath_shape (s path : string) :
  size s < SIZE_MODULUS -> getPath s = Ok path ->
  (first_occurrence " /" s = None /\ exists count, path = substring 1 count s)
  \/ (exists k, first_occurrence " /" s = Some k
                /\ size path + Z.of_nat k + 2 <= size s).
Proof.
  intros Hs. unfold getPath, parseBetween. cbv zeta.
  destruct (first_occurrence " /" s) as [k|] eqn:E.
  - destruct (found_marker_start _ _ _ E ltac:(vm_compute; reflexivity) Hs) as [-> H].
    change (size " /") with 2 in *.
    destruct (substr s (Z.of_nat k + 2) npos) as [suffix|]; cbn [bind]; [|discriminate].
    unfold substr. destruct (size s <? Z.of_nat k + 2); [discriminate|].
    intros Hp. injection Hp as <-. right. exists k. split; [reflexivity|].
    replace (Z.to_nat (Z.of_nat k + 2)) with (k + 2)%nat by lia.
    destruct (length_substring_rest s (k + 2)
                (Z.to_nat (Z.min (find suffix " ") (size s - (Z.of_nat k + 2)))))
      as [Hle | [Hlt ->]]; unfold size in *; simpl; lia.
  - rewrite absent_marker_start by (assumption || (vm_compute; reflexivity)).
    change (Z.of_nat (String.length " /" - 1)) with 1.
    destruct (substr s 1 npos) as [suffix|]; cbn [bind]; [|discriminate].
    unfold substr. destruct (size s <? 1); [discriminate|].
    intros Hp. injection Hp as <-. left. split; [reflexivity|]. eauto.
Qed.

(** A GET request whose path starts with [user-agent] is at least 13
    bytes long, which is where [parseBetween] starts when the header is
    absent. *)
Lemma user_agent_request_long (s rest tail : string) :
  size s < SIZE_MODULUS ->
  s = "GET" ++ rest ->
  getPath s = Ok ("user-agent" ++ tail) ->
  13 <= size s.
Proof.
  intros Hs Hget Hpath. pose proof (size_nonneg tail) as Ht.
  destruct (getPath_shape _ _ Hs Hpath) as [[_ [count Hcut]] | (k & Hk & Hle)].
  - exfalso. subst s. destruct count; simpl in Hcut.
    + destruct rest; discriminate Hcut.
    + discriminate Hcut.
  - rewrite size_append in Hle. change (size "user-agent") with 10 in Hle.
    destruct k as [|k]; [|lia].
    exfalso. subst s. simpl in Hk.
    destruct (first_occurrence " /" rest); discriminate Hk.
Qed.

Lemma formulateEchoResponse_ok (path : string) :
  5 <= size path -> exists response, formulateEchoResponse path = Ok response.
Proof.
  intros H. unfold formulateEchoResponse. cbv zeta.
  destruct (substr_ok ("/" ++ path) 6 npos) as [body ->]; [|cbn [bind]; eauto].
  change ("/" ++ path) with (String "/" path). rewrite size_String. lia.
Qed.

Lemma formulateUserAgentResponse_ok (s : string) :
  size s < SIZE_MODULUS -> 13 <= size s ->
  exists response, formulateUserAgentResponse s = Ok response.
Proof.
  intros Hs Hlen. unfold formulateUserAgentResponse.
  destruct (parseBetween s (CRLF ++ "User-Agent: ") CRLF) as [body|] eqn:E;
    cbn [bind]; [eauto|].
  apply parseBetween_throws in E.
  pose proof (parse_start_inside s (CRLF ++ "User-Agent: ")
                ltac:(vm_compute; reflexivity) Hs) as H.
  change (size (CRLF ++ "User-Agent: ") - 1) with 13 in H. specialize (H Hlen). lia.
Qed.

Lemma fetchFileContents_ok (fs : filesystem) (path contentType : string) :
  exists response, fetchFileContents fs path contentType = Ok response.
Proof.
  unfold fetchFileContents. cbv zeta.
  destruct (read_lines _ _ _) as [file contents].
  destruct (substr_zero_ok contents (to_size_t (size contents - 1))) as [body ->].
  cbn [bind]. eauto.
Qed.

Lemma storeFile_ok (fs : filesystem) (name directory s : string) :
  size s < SIZE_MODULUS -> 3 <= size s ->
  exists saved fs', storeFile fs ("files/" ++ name) directory s = Ok (saved, fs').
Proof.
  intros Hs Hlen. rewrite storeFile_files.
  destruct (ofstream_open _ _) as [created|]; [|eauto].
  destruct (parseFromThisToEnd s (CRLF ++ CRLF)) as [body|] eqn:E; cbn [bind]; [eauto|].
  apply parseFromThisToEnd_throws in E.
  pose proof (parse_start_inside s (CRLF ++ CRLF)
                ltac:(vm_compute; reflexivity) Hs) as H.
  change (size (CRLF ++ CRLF) - 1) with 3 in H. specialize (H Hlen). lia.
Qed.

(** Every request but the empty one is answered, and only a POST to
    [files/] can change the file system. *)
Lemma handleClient_sent
    (bytes_received : Z) (received directory : string) (fs : filesystem)
    (s : string) :
  0 <= bytes_received ->
  c_string (recv_into buffer_init received) = Some s ->
  s <> EmptyString ->
  exists response fs',
    handleClient bytes_received received directory fs = Sent response fs'
    /\ (fs' = fs
        \/ getMethod s = Ok "POST"
           /\ exists name, getPath s = Ok ("files/" ++ name)).
Proof.
  intros Hn Hreq Hne.
  pose proof (request_size _ _ Hreq) as Hsize.
  assert (Hs : size s < SIZE_MODULUS) by (unfold BUFFER_SIZE, SIZE_MODULUS in *; lia).
  destruct (getPath s) as [path|] eqn:Hpath;
    [|apply getPath_throws in Hpath; [contradiction | exact Hs]].
  destruct (getMethod_result s Hs) as (method & rest & Hmethod & Hsplit & _ & _).
  unfold handleClient. cbv zeta.
  destruct (bytes_received <? 0) eqn:E; [apply Z.ltb_lt in E; lia | clear E].
  rewrite Hreq, Hpath. cbn [bind]. rewrite Hmethod. cbn [bind].
  destruct (to_size_t bytes_received >? BUFFER_SIZE).
  { change (negb (String.eqb (HTTP414 ++ CRLF) EmptyString)) with true. cbv iota.
    eauto. }
  change (negb (String.eqb EmptyString EmptyString)) with false. cbv iota.
  destruct (String.eqb method "GET") eqn:Eget.
  - apply String.eqb_eq in Eget. subst method.
    destruct (String.eqb path EmptyString); [eauto|].
    destruct (prefix_test "echo/" path) as (prefix5 & H5 & E5).
    change (size "echo/") with 5 in H5. rewrite H5. cbn [bind]. rewrite E5.
    destruct (starts_with "echo/" path) eqn:S5.
    { destruct (starts_with_inv _ _ S5) as [b ->].
      destruct (formulateEchoResponse_ok ("echo/" ++ b)) as [r ->]; [|cbn [bind]; eauto].
      rewrite size_append. change (size "echo/") with 5. pose proof (size_nonneg b). lia. }
    destruct (prefix_test "user-agent" path) as (prefix10 & H10 & E10).
    change (size "user-agent") with 10 in H10. rewrite H10. cbn [bind]. rewrite E10.
    destruct (starts_with "user-agent" path) eqn:S10.
    { destruct (starts_with_inv _ _ S10) as [b ->].
      destruct (formulateUserAgentResponse_ok s Hs) as [r ->]; [|cbn [bind]; eauto].
      exact (user_agent_request_long s rest b Hs Hsplit Hpath). }
    destruct (prefix_test "files/" path) as (prefix6 & H6 & E6).
    change (size "files/") with 6 in H6. rewrite H6. cbn [bind]. rewrite E6.
    destruct (starts_with "files/" path) eqn:S6.
    { destruct (starts_with_inv _ _ S6) as [b ->].
      rewrite codeCraftersGetFile_files.
      destruct (negb _); [cbn [bind]; eauto|].
      destruct (fetchFileContents_ok fs (directory ++ b) "application/octet-stream")
        as [r ->].
      cbn [bind]. eauto. }
    destruct (isValidFilePath fs path); [|eauto].
    rewrite getFileExtension_spec
      by (pose proof (parseBetween_size_le _ _ _ _ Hpath);
          unfold BUFFER_SIZE, npos, SIZE_MODULUS in *; lia).
    cbn [bind].
    destruct (fetchFileContents_ok fs path (defaultContentType (spec_extension path)))
      as [r ->].
    cbn [bind]. eauto.
  - destruct (String.eqb method "POST") eqn:Epost; [|eauto].
    apply String.eqb_eq in Epost. subst method.
    destruct (prefix_test "files/" path) as (prefix6 & H6 & E6).
    change (size "files/") with 6 in H6. rewrite H6. cbn [bind]. rewrite E6.
    destruct (starts_with "files/" path) eqn:S6; [|eauto].
    destruct (starts_with_inv _ _ S6) as [b ->].
    destruct (storeFile_ok fs b directory s Hs) as (saved & fs' & ->).
    + rewrite Hsplit, size_append. change (size "POST") with 4.
      pose proof (size_nonneg rest). lia.
    + cbn [bind]. destruct saved; cbn [negb]; do 2 eexists;
        (split; [reflexivity | right; split; [reflexivity | now exists b]]).
Qed.

Lemma empty_request_terminates
    (bytes_received : Z) (received directory : string) (fs : filesystem) :
  0 <= bytes_received ->
  c_string (recv_into buffer_init received) = Some EmptyString ->
  handleClient bytes_received received directory fs = Terminated.
Proof.
  intros Hn Hreq. unfold handleClient. cbv zeta.
  destruct (bytes_received <? 0) eqn:E; [apply Z.ltb_lt in E; lia|].
  rewrite Hreq. reflexivity.
Qed.

End Answered.

(** X3.  What the parser does with any request.  [getMethod] never throws: it
    returns the part of the request before its first space, the whole
    request when it has no space.  [getPath] throws on the empty request
    and on no other. *)
Theorem request_parse_faults :
  forall s : string,
    size s < SIZE_MODULUS ->
    (exists method rest,
        getMethod s = Ok method /\ s = method ++ rest
        /\ contains_char " " method = false
        /\ (rest = EmptyString \/ exists rest', rest = String " " rest'))
    /\ (getPath s = OutOfRange <-> s = EmptyString).
Proof.
  intros s Hs. split.
  - now apply getMethod_result.
  - now apply getPath_throws.
Qed.

(** [request_parse_faults] on the empty request and on a one-byte
    request. *)
Lemma request_parse_faults_witness :
  getPath EmptyString = OutOfRange
  /\ getPath "x" <> OutOfRange
  /\ exists method rest,
       getMethod EmptyString = Ok method /\ EmptyString = method ++ rest
       /\ contains_char " " method = false
       /\ (rest = EmptyString \/ exists rest', rest = String " " rest').
Proof.
  split; [|split].
  - apply (request_parse_faults EmptyString); [vm_compute|]; reflexivity.
  - intros H. apply (request_parse_faults "x") in H; [discriminate H|].
    vm_compute. reflexivity.
  - apply (request_parse_faults EmptyString). vm_compute. reflexivity.
Defined.

(** X5.  The only request that ends the process is the empty one: every other
    request that [recv] delivered gets a response, and the empty request
    (for instance a peer that closes without sending) makes [getPath]
    throw. *)
Theorem only_empty_request_terminates :
  forall (bytes_received : Z) (received directory : string) (fs : filesystem)
         (requestContents : string),
    0 <= bytes_received ->
    c_string (recv_into buffer_init received) = Some requestContents ->
    handleClient bytes_received received directory fs = Terminated
    <-> requestContents = EmptyString.
Proof.
  intros n received directory fs s Hn Hreq. split.
  - intros H. destruct s as [|c s]; [reflexivity|]. exfalso.
    destruct (handleClient_sent n received directory fs (String c s) Hn Hreq)
      as (r & fs' & Hsent & _); [discriminate|].
    rewrite Hsent in H. discriminate H.
  - intros ->. now apply empty_request_terminates.
Qed.

(** [only_empty_request_terminates] on a connection that delivered no
    byte, and on one that delivered a single byte. *)
Lemma only_empty_request_terminates_witness :
  handleClient 0 EmptyString "/tmp/d" fs_tmp = Terminated
  /\ handleClient 1 "x" "/tmp/d" fs_tmp <> Terminated.
Proof.
  split.
  - apply (only_empty_request_terminates 0 EmptyString "/tmp/d" fs_tmp EmptyString);
      [lia | vm_compute; reflexivity | reflexivity].
  - intros H.
    apply (only_empty_request_terminates 1 "x" "/tmp/d" fs_tmp "x") in H;
      [discriminate H | lia | vm_compute; reflexivity].
Defined.

(** X6.  The file system after a response is the file system before it,
    unless the request is a POST whose path starts with [files/]. *)
Theorem only_post_files_writes :
  forall (bytes_received : Z) (received directory : string) (fs fs' : filesystem)
         (requestContents response : string),
    0 <= bytes_received ->
    c_string (recv_into buffer_init received) = Some requestContents ->
    handleClient bytes_received received directory fs = Sent response fs' ->
    fs' = fs
    \/ getMethod requestContents = Ok "POST"
       /\ exists name, getPath requestContents = Ok ("files/" ++ name).
Proof.
  intros n received directory fs fs' s r Hn Hreq Hsent.
  destruct s as [|c s].
  - assert (H : handleClient n received directory fs = Terminated)
      by (now apply (empty_request_terminates n received directory fs)).
    rewrite H in Hsent. discriminate Hsent.
  - destruct (handleClient_sent n received directory fs (String c s) Hn Hreq)
      as (r' & fs'' & Hsent' & Hframe); [discriminate|].
    rewrite Hsent' in Hsent. injection Hsent as _ <-. exact Hframe.
Qed.

(** [only_post_files_writes] on a GET and on a POST to another path, with
    a file system that holds a file. *)
Lemma only_post_files_writes_witness :
  (fs_served = fs_served
   \/ getMethod (request "GET /files/notes.txt" EmptyString) = Ok "POST"
      /\ exists name,
           getPath (request "GET /files/notes.txt" EmptyString)
           = Ok ("files/" ++ name))
  /\ handleClient 30 (request "POST /upload" "x") "/tmp/d" fs_served
     = Sent (HTTP501 ++ CRLF) fs_served.
Proof.
  split; [|vm_compute; reflexivity].
  apply (only_post_files_writes 38 (request "GET /files/notes.txt" EmptyString)
           "/tmp/d/" fs_served fs_served
           (request "GET /files/notes.txt" EmptyString)
           (HTTP200 ++ "Content-Type: application/octet-stream" ++ CRLF
              ++ "Content-Length: 18" ++ CRLF ++ CRLF ++ notes)).
  - lia.
  - vm_compute. reflexivity.
  - vm_compute. reflexivity.
Defined.

(** ** The routes the other theorems leave out *)

Section OtherRoutes.

Variables (bytes_received : Z) (received directory : string) (fs : filesystem)
          (requestContents : string).
Hypothesis received_in_buffer : 0 <= bytes_received <= BUFFER_SIZE.
Hypothesis request_read :
  c_string (recv_into buffer_init received) = Some requestContents.

(** A GET request whose path is none of the four routes is answered from
    the file the path names, or 404. *)
Lemma handleClient_get_other (path : string) :
  getMethod requestContents = Ok "GET" ->
  getPath requestContents = Ok path ->
  path <> EmptyString ->
  starts_with "echo/" path = false ->
  starts_with "user-agent" path = false ->
  starts_with "files/" path = false ->
  handleClient bytes_received received directory fs =
    if isValidFilePath fs path then
      match fetchFileContents fs path (defaultContentType (spec_extension path)) with
      | Ok response => Sent response fs
      | OutOfRange => Terminated
      end
    else Sent (HTTP404 ++ CRLF) fs.
Proof.
  intros Hmethod Hpath Hne S5 S10 S6.
  pose proof (request_size _ _ request_read) as Hsize.
  pose proof (parseBetween_size_le _ _ _ _ Hpath) as Hp.
  enter_dispatch received_in_buffer request_read Hpath Hmethod.
  change (String.eqb "GET" "GET") with true. cbv iota.
  apply String.eqb_neq in Hne. rewrite Hne.
  destruct (prefix_test "echo/" path) as (prefix5 & H5 & E5).
  change (size "echo/") with 5 in H5. rewrite H5. cbn [bind]. rewrite E5, S5.
  destruct (prefix_test "user-agent" path) as (prefix10 & H10 & E10).
  change (size "user-agent") with 10 in H10. rewrite H10. cbn [bind]. rewrite E10, S10.
  destruct (prefix_test "files/" path) as (prefix6 & H6 & E6).
  change (size "files/") with 6 in H6. rewrite H6. cbn [bind]. rewrite E6, S6.
  destruct (isValidFilePath fs path); [|reflexivity].
  rewrite getFileExtension_spec by (unfold BUFFER_SIZE, npos, SIZE_MODULUS in *; lia).
  cbn [bind].
  destruct (fetchFileContents fs path (defaultContentType (spec_extension path)));
    reflexivity.
Qed.

(** The dispatch up to [formulateUserAgentResponse]. *)
Lemma handleClient_user_agent (tail : string) :
  getMethod requestContents = Ok "GET" ->
  getPath requestContents = Ok ("user-agent" ++ tail) ->
  handleClient bytes_received received directory fs =
    match formulateUserAgentResponse requestContents with
    | Ok response => Sent response fs
    | OutOfRange => Terminated
    end.
Proof.
  intros Hmethod Hpath.
  enter_dispatch received_in_buffer request_read Hpath Hmethod.
  change (String.eqb "GET" "GET") with true. cbv iota.
  change (String.eqb ("user-agent" ++ tail) EmptyString) with false. cbv iota.
  change ("user-agent" ++ tail) with ("user-" ++ "agent" ++ tail) at 1.
  change 5 with (size "user-"). rewrite substr_start. cbn [bind].
  change (String.eqb "user-" "echo/") with false. cbv iota.
  change 10 with (size "user-agent"). rewrite substr_start. cbn [bind].
  change (String.eqb "user-agent" "user-agent") with true. cbv iota.
  destruct (formulateUserAgentResponse requestContents); reflexivity.
Qed.

End OtherRoutes.

(** X8.  A GET of [/], whatever follows the request line: the parsed path is
    empty and the response is the 200 status line and a blank line, with
    no header and no body. *)
Theorem root_ping :
  forall (bytes_received : Z) (rest directory : string) (fs : filesystem),
    0 <= bytes_received <= BUFFER_SIZE ->
    contains_char NUL ("GET / " ++ rest) = false ->
    size ("GET / " ++ rest) < BUFFER_SIZE ->
    handleClient bytes_received ("GET / " ++ rest) directory fs
    = Sent (HTTP200 ++ CRLF) fs.
Proof.
  intros n rest directory fs Hn Hnul Hsize.
  pose proof (request_received _ Hnul Hsize) as Hreq.
  destruct (parse_request_line "GET" EmptyString rest eq_refl eq_refl Hsize)
    as [Hmethod Hpath].
  change ("GET" ++ " /" ++ EmptyString ++ " " ++ rest) with ("GET / " ++ rest)
    in Hmethod, Hpath.
  enter_dispatch Hn Hreq Hpath Hmethod.
  reflexivity.
Qed.

(** [root_ping] on [GET / HTTP/1.1] with a header. *)
Lemma root_ping_witness :
  handleClient 27 ("GET / HTTP/1.1" ++ CRLF ++ "Host: a" ++ CRLF ++ CRLF)
               EmptyString fs_tmp
  = Sent ("HTTP/1.1 200 OK" ++ CRLF ++ CRLF) fs_tmp.
Proof.
  apply (root_ping 27 ("HTTP/1.1" ++ CRLF ++ "Host: a" ++ CRLF ++ CRLF)
           EmptyString fs_tmp).
  - unfold BUFFER_SIZE. lia.
  - vm_compute. reflexivity.
  - vm_compute. reflexivity.
Defined.

(** X10.  A GET of any other path that contains a slash and names a file that
    can be opened returns that file: status 200, the content type
    [defaultContentType] gives for the extension [getFileExtension] finds
    in the path, the length of the file, and its bytes. *)
Theorem generic_file_fetch :
  forall (bytes_received : Z) (received directory : string) (fs : filesystem)
         (requestContents path bytes : string),
    0 <= bytes_received <= BUFFER_SIZE ->
    c_string (recv_into buffer_init received) = Some requestContents ->
    getMethod requestContents = Ok "GET" ->
    getPath requestContents = Ok path ->
    starts_with "echo/" path = false ->
    starts_with "user-agent" path = false ->
    starts_with "files/" path = false ->
    contains_char "/" path = true ->
    read_file fs path = Some bytes ->
    size bytes < SIZE_MODULUS ->
    exists extension,
      getFileExtension path = Ok extension
      /\ handleClient bytes_received received directory fs =
           Sent (HTTP200 ++ "Content-Type: " ++ defaultContentType extension ++ CRLF
                   ++ "Content-Length: " ++ to_string (size bytes) ++ CRLF
                   ++ CRLF ++ bytes) fs.
Proof.
  intros n received directory fs s path bytes Hn Hreq Hmethod Hpath S5 S10 S6
         Hslash Hread Hbytes.
  pose proof (request_size _ _ Hreq) as Hsize.
  pose proof (parseBetween_size_le _ _ _ _ Hpath) as Hp.
  exists (spec_extension path). split.
  - apply getFileExtension_spec. unfold BUFFER_SIZE, npos, SIZE_MODULUS in *. lia.
  - rewrite (handleClient_get_other n received directory fs s Hn Hreq path)
      by (try assumption; intros ->; discriminate Hslash).
    assert (Hvalid : isValidFilePath fs path = true).
    { apply isValidFilePath_iff; [unfold BUFFER_SIZE in *; lia|]. eauto. }
    rewrite Hvalid.
    now rewrite (fetchFileContents_readable fs path _ bytes Hread Hbytes).
Qed.

(** X11.  A GET of any other path that has no slash is answered 404,
    the empty path apart, whether or not a file of that name exists:
    [isValidFilePath] turns the path down before it opens anything. *)
Theorem generic_not_found :
  forall (bytes_received : Z) (received directory : string) (fs : filesystem)
         (requestContents path : string),
    0 <= bytes_received <= BUFFER_SIZE ->
    c_string (recv_into buffer_init received) = Some requestContents ->
    getMethod requestContents = Ok "GET" ->
    getPath requestContents = Ok path ->
    path <> EmptyString ->
    starts_with "echo/" path = false ->
    starts_with "user-agent" path = false ->
    starts_with "files/" path = false ->
    contains_char "/" path = false ->
    handleClient bytes_received received directory fs = Sent (HTTP404 ++ CRLF) fs.
Proof.
  intros n received directory fs s path Hn Hreq Hmethod Hpath Hne S5 S10 S6 Hno.
  pose proof (request_size _ _ Hreq) as Hsize.
  pose proof (parseBetween_size_le _ _ _ _ Hpath) as Hp.
  rewrite (handleClient_get_other n received directory fs s Hn Hreq path)
    by assumption.
  destruct (isValidFilePath fs path) eqn:Hvalid; [|reflexivity].
  apply isValidFilePath_iff in Hvalid; [|unfold BUFFER_SIZE in *; lia].
  destruct Hvalid as (Hslash & _). congruence.
Qed.


(** [generic_file_fetch] on [GET /static/data.json]: the file is served
    as [application/json]. *)
Lemma generic_file_fetch_witness :
  exists extension,
    getFileExtension "static/data.json" = Ok extension
    /\ handleClient 38 (request "GET /static/data.json" EmptyString) EmptyString
                    fs_static
       = Sent (HTTP200 ++ "Content-Type: " ++ defaultContentType extension ++ CRLF
                 ++ "Content-Length: " ++ to_string (size "{}") ++ CRLF
                 ++ CRLF ++ "{}") fs_static.
Proof.
  apply (generic_file_fetch 38 (request "GET /static/data.json" EmptyString)
           EmptyString fs_static (request "GET /static/data.json" EmptyString)
           "static/data.json" "{}").
  - unfold BUFFER_SIZE. lia.
  - vm_compute. reflexivity.
  - vm_compute. reflexivity.
  - vm_compute. reflexivity.
  - reflexivity.
  - reflexivity.
  - reflexivity.
  - reflexivity.
  - vm_compute. reflexivity.
  - vm_compute. reflexivity.
Defined.

(** [generic_not_found] on a file of the working directory, which exists
    but whose path has no slash. *)
Lemma generic_not_found_witness :
  read_file fs_cwd "a.txt" = Some "hi"
  /\ handleClient 23 (request "GET /a.txt" EmptyString) EmptyString fs_cwd
     = Sent ("HTTP/1.1 404 Not Found" ++ CRLF ++ CRLF) fs_cwd.
Proof.
  split; [vm_compute; reflexivity|].
  apply (generic_not_found 23 (request "GET /a.txt" EmptyString) EmptyString fs_cwd
           (request "GET /a.txt" EmptyString) "a.txt").
  - unfold BUFFER_SIZE. lia.
  - vm_compute. reflexivity.
  - vm_compute. reflexivity.
  - vm_compute. reflexivity.
  - discriminate.
  - reflexivity.
  - reflexivity.
  - reflexivity.
  - reflexivity.
Defined.


(** X9.  A GET of [user-agent] whose request holds the header: the body is the
    value of the first [User-Agent] header, up to the end of its line,
    sent as [text/plain] with its length. *)
Theorem user_agent_present :
  forall (bytes_received : Z) (received directory : string) (fs : filesystem)
         (requestContents tail head rest value after : string),
    0 <= bytes_received <= BUFFER_SIZE ->
    c_string (recv_into buffer_init received) = Some requestContents ->
    getMethod requestContents = Ok "GET" ->
    getPath requestContents = Ok ("user-agent" ++ tail) ->
    first_at (CRLF ++ "User-Agent: ") requestContents head rest ->
    first_at CRLF rest value after ->
    handleClient bytes_received received directory fs =
      Sent (HTTP200 ++ "Content-Type: text/plain" ++ CRLF
              ++ "Content-Length: " ++ to_string (size value) ++ CRLF
              ++ CRLF ++ value) fs.
Proof.
  intros n received directory fs s tail head rest value after Hn Hreq Hmethod Hpath
         Hheader Hline.
  pose proof (request_size _ _ Hreq) as Hsize.
  rewrite (handleClient_user_agent n received directory fs s Hn Hreq tail)
    by assumption.
  unfold formulateUserAgentResponse.
  pose proof (first_at_found _ _ _ _ Hheader) as H1.
  pose proof (first_at_found _ _ _ _ Hline) as H2.
  destruct Hheader as [Hs _]. destruct Hline as [Hrest _]. subst rest.
  rewrite Hs at 1. rewrite Hs in H1, Hsize.
  rewrite parseBetween_at;
    [ | exact H1 | exact H2 | vm_compute; reflexivity
      | unfold BUFFER_SIZE, SIZE_MODULUS in *; lia ].
  cbn [bind]. now rewrite !append_assoc.
Qed.

(** [user_agent_present] on a request as curl sends it, the header after
    the Host line. *)
Lemma user_agent_present_witness :
  handleClient 69
    ("GET /user-agent HTTP/1.1" ++ CRLF ++ "Host: localhost:4221" ++ CRLF
       ++ "User-Agent: curl/8.4.0" ++ CRLF ++ CRLF)
    EmptyString fs_tmp
  = Sent ("HTTP/1.1 200 OK" ++ CRLF ++ "Content-Type: text/plain" ++ CRLF
            ++ "Content-Length: 10" ++ CRLF ++ CRLF ++ "curl/8.4.0") fs_tmp.
Proof.
  apply (user_agent_present 69 _ EmptyString fs_tmp
           ("GET /user-agent HTTP/1.1" ++ CRLF ++ "Host: localhost:4221" ++ CRLF
              ++ "User-Agent: curl/8.4.0" ++ CRLF ++ CRLF)
           EmptyString
           ("GET /user-agent HTTP/1.1" ++ CRLF ++ "Host: localhost:4221")
           ("curl/8.4.0" ++ CRLF ++ CRLF) "curl/8.4.0" CRLF).
  - unfold BUFFER_SIZE. lia.
  - vm_compute. reflexivity.
  - vm_compute. reflexivity.
  - vm_compute. reflexivity.
  - apply (found_first_at (CRLF ++ "User-Agent: ")
             ("GET /user-agent HTTP/1.1" ++ CRLF ++ "Host: localhost:4221")
             ("curl/8.4.0" ++ CRLF ++ CRLF)).
    vm_compute. reflexivity.
  - apply (found_first_at CRLF "curl/8.4.0" CRLF). vm_compute. reflexivity.
Defined.

(** ** Storing *)

(** X13.  A POST to [files/<name>] whose destination can be opened: the
    response is 201, the destination then holds the bytes that follow the
    first blank line of the request, and every other file reads as
    before.  A path that does not lead to the destination reads as it
    does once [mkdir] has created the directory; [mkdir] keeps every path
    that could be read; and the files at every other place are the files
    that were there. *)
Theorem store_body :
  forall (bytes_received : Z) (received directory : string) (fs : filesystem)
         (requestContents name head body : string),
    0 <= bytes_received <= BUFFER_SIZE ->
    c_string (recv_into buffer_init received) = Some requestContents ->
    getMethod requestContents = Ok "POST" ->
    getPath requestContents = Ok ("files/" ++ name) ->
    first_at (CRLF ++ CRLF) requestContents head body ->
    can_create (mkdir fs directory) (destination directory name) = true ->
    exists fs' : filesystem,
      handleClient bytes_received received directory fs = Sent (HTTP201 ++ CRLF) fs'
      /\ read_file fs' (destination directory name) = Some body
      /\ (forall p,
             locate fs' p <> locate fs' (destination directory name) ->
             read_file fs' p = read_file (mkdir fs directory) p)
      /\ (forall p bytes,
             read_file fs p = Some bytes ->
             read_file (mkdir fs directory) p = Some bytes)
      /\ (forall q,
             locate fs' (destination directory name) <> Some (Regular q) ->
             lookup q (files fs') = lookup q (files fs)).
Proof.
  intros n received directory fs s name head body Hn Hreq Hmethod Hpath Hblank Hopen.
  pose proof (request_size _ _ Hreq) as Hsize.
  assert (Hbody : parseFromThisToEnd s (CRLF ++ CRLF) = Ok body).
  { pose proof (first_at_found _ _ _ _ Hblank) as H1.
    destruct Hblank as [Hs _]. rewrite Hs in *.
    apply parseFromThisToEnd_at;
      [exact H1 | vm_compute; reflexivity
       | unfold BUFFER_SIZE, SIZE_MODULUS in *; lia]. }
  destruct (stored_file _ _ body Hopen) as (qd & Hfs & Hqd & Dqd).
  exists (write_file
            (write_file (mkdir fs directory) (destination directory name) EmptyString)
            (destination directory name) body).
  split; [|split; [|split; [|split]]].
  - rewrite (handleClient_post_files n received directory fs s Hn Hreq name)
      by assumption.
    rewrite storeFile_files. unfold ofstream_open. rewrite Hopen, Hbody.
    cbn [bind]. reflexivity.
  - apply read_after_write. exact Hopen.
  - intros p Hp. rewrite Hqd in Hp. rewrite Hfs in Hp |- *.
    pose proof (read_file_elsewhere
                  (mkFilesystem (directories (mkdir fs directory))
                     ((qd, EmptyString) :: files (mkdir fs directory)))
                  qd body p) as Hlast.
    cbn [directories files] in Hlast.
    destruct (Hlast Hp) as [Hp1 Hsame]. rewrite Hsame.
    apply (read_file_elsewhere (mkdir fs directory) qd EmptyString p Hp1).
  - intros p bytes. apply read_file_mkdir.
  - intros q Hq. rewrite Hqd in Hq. rewrite Hfs. cbn [files lookup].
    rewrite files_mkdir.
    destruct (String.eqb q qd) eqn:Q; [|reflexivity].
    apply String.eqb_eq in Q. subst q. contradiction.
Qed.

(** [store_body] on the request [POST /files/test.txt] with body [hello]
    and the directory [/tmp/d]: [/tmp/d/test.txt] holds [hello]. *)
Lemma store_body_witness :
  exists fs' : filesystem,
    handleClient 39 (request "POST /files/test.txt" "hello") "/tmp/d" fs_served
    = Sent ("HTTP/1.1 201 Created" ++ CRLF ++ CRLF) fs'
    /\ read_file fs' "/tmp/d/test.txt" = Some "hello"
    /\ (forall p,
           locate fs' p <> locate fs' "/tmp/d/test.txt" ->
           read_file fs' p = read_file (mkdir fs_served "/tmp/d") p)
    /\ (forall p bytes,
           read_file fs_served p = Some bytes ->
           read_file (mkdir fs_served "/tmp/d") p = Some bytes)
    /\ (forall q,
           locate fs' "/tmp/d/test.txt" <> Some (Regular q) ->
           lookup q (files fs') = lookup q (files fs_served)).
Proof.
  apply (store_body 39 (request "POST /files/test.txt" "hello") "/tmp/d" fs_served
           (request "POST /files/test.txt" "hello") "test.txt"
           "POST /files/test.txt HTTP/1.1" "hello").
  - unfold BUFFER_SIZE. lia.
  - vm_compute. reflexivity.
  - vm_compute. reflexivity.
  - vm_compute. reflexivity.
  - apply (found_first_at (CRLF ++ CRLF) "POST /files/test.txt HTTP/1.1" "hello").
    vm_compute. reflexivity.
  - vm_compute. reflexivity.
Defined.



(** X16.  [fetchFileContents] has no answer of its own for a file that cannot
    be opened: the loop does not run, [contents.size() - 1] wraps around
    on the empty string, and the response is a 200 with length 0 and no
    body. *)
Theorem fetchFileContents_unreadable :
  forall (fs : filesystem) (path contentType : string),
    read_file fs path = None ->
    fetchFileContents fs path contentType =
      Ok (HTTP200 ++ "Content-Type: " ++ contentType ++ CRLF
            ++ "Content-Length: 0" ++ CRLF ++ CRLF).
Proof.
  intros fs path contentType Hread.
  unfold fetchFileContents, ifstream_open. cbv zeta. rewrite Hread.
  simpl read_lines. cbv beta iota.
  assert (E : substr EmptyString 0 (to_size_t (size EmptyString - 1)) = Ok EmptyString)
    by reflexivity.
  rewrite E. cbn [bind]. change (to_string (size EmptyString)) with "0".
  f_equal. rewrite !append_assoc. now rewrite append_empty.
Qed.

(** [fetchFileContents_unreadable] on a file system without files. *)
Lemma fetchFileContents_unreadable_witness :
  fetchFileContents fs_tmp "/tmp/missing" "text/plain" =
    Ok ("HTTP/1.1 200 OK" ++ CRLF ++ "Content-Type: text/plain" ++ CRLF
          ++ "Content-Length: 0" ++ CRLF ++ CRLF).
Proof.
  apply (fetchFileContents_unreadable fs_tmp "/tmp/missing" "text/plain").
  reflexivity.
Defined.

(** ** From the bytes received to method and path *)

(** X4.  A request [<method> /<path> <rest>] without NUL that is shorter than
    the buffer, with no space in [<method>] or [<path>], is what the
    server reads back from the buffer, and is parsed into [<method>] and
    [<path>] (the slash after the space is not part of the path). *)
Theorem request_line_is_parsed :
  forall method path rest : string,
    contains_char " " method = false ->
    contains_char " " path = false ->
    contains_char NUL (method ++ " /" ++ path ++ " " ++ rest) = false ->
    size (method ++ " /" ++ path ++ " " ++ rest) < BUFFER_SIZE ->
    c_string (recv_into buffer_init (method ++ " /" ++ path ++ " " ++ rest))
    = Some (method ++ " /" ++ path ++ " " ++ rest)
    /\ getMethod (method ++ " /" ++ path ++ " " ++ rest) = Ok method
    /\ getPath (method ++ " /" ++ path ++ " " ++ rest) = Ok path.
Proof.
  intros method path rest Hm Hp Hnul Hsize. split.
  - now apply request_received.
  - now apply parse_request_line.
Qed.

(** [request_line_is_parsed] on a DELETE request with two headers. *)
Lemma request_line_is_parsed_witness :
  getMethod ("DELETE /files/a%20b.txt HTTP/1.1" ++ CRLF ++ "Host: h" ++ CRLF ++ CRLF)
  = Ok "DELETE"
  /\ getPath ("DELETE /files/a%20b.txt HTTP/1.1" ++ CRLF ++ "Host: h" ++ CRLF ++ CRLF)
     = Ok "files/a%20b.txt".
Proof.
  apply (request_line_is_parsed "DELETE" "files/a%20b.txt"
           ("HTTP/1.1" ++ CRLF ++ "Host: h" ++ CRLF ++ CRLF)).
  - reflexivity.
  - reflexivity.
  - vm_compute. reflexivity.
  - vm_compute. reflexivity.
Defined.

(** ** Every response *)

Section Responses.

Lemma handleClient_overflow
    (bytes_received : Z) (received directory : string) (fs fs' : filesystem)
    (response : string) :
  BUFFER_SIZE < bytes_received < 2 ^ 31 ->
  handleClient bytes_received received directory fs = Sent response fs' ->
  response = HTTP414 ++ CRLF.
Proof.
  intros Hn. unfold handleClient. cbv zeta.
  destruct (bytes_received <? 0); [discriminate|].
  rewrite to_size_t_small by (unfold BUFFER_SIZE, SIZE_MODULUS in *; lia).
  destruct (bytes_received >? BUFFER_SIZE) eqn:E;
    [clear E | rewrite Z.gtb_ltb in E; apply Z.ltb_ge in E; lia].
  destruct (c_string _) as [s|]; [|discriminate].
  destruct (getPath s); cbn [bind]; [|discriminate].
  destruct (getMethod s); cbn [bind]; [|discriminate].
  change (negb (String.eqb (HTTP414 ++ CRLF) EmptyString)) with true. cbv iota.
  intros H. now injection H as <- _.
Qed.

Lemma dispatched_not_400 (response : string) :
  dispatched response -> starts_with "HTTP/1.1 400" response = false.
Proof. intros H. destruct H; reflexivity. Qed.

End Responses.

(** X7.  Whatever [recv] returned, what is sent is nothing at all, a response
    that starts with the 200 status line, or one of the status lines 201,
    404, 414, 500 and 501 followed by a blank line.  The 400 status line
    that the source defines is never sent. *)
Theorem responses_sent :
  forall (bytes_received : Z) (received directory : string) (fs fs' : filesystem)
         (response : string),
    bytes_received < 2 ^ 31 ->
    handleClient bytes_received received directory fs = Sent response fs' ->
    (dispatched response \/ response = HTTP414 ++ CRLF)
    /\ starts_with "HTTP/1.1 400" response = false.
Proof.
  intros n received directory fs fs' r Hint Hsent.
  destruct (Z_le_gt_dec n BUFFER_SIZE) as [Hle | Hgt].
  - pose proof (handleClient_dispatched n received directory fs fs' r Hle Hsent) as H.
    split; [now left | now apply dispatched_not_400].
  - rewrite (handleClient_overflow n received directory fs fs' r) by (assumption || lia).
    split; [now right | reflexivity].
Qed.

(** [responses_sent] on a PUT request, which is answered with nothing. *)
Lemma responses_sent_witness :
  (dispatched EmptyString \/ EmptyString = HTTP414 ++ CRLF)
  /\ starts_with "HTTP/1.1 400" EmptyString = false.
Proof.
  apply (responses_sent 22 (request "PUT /x" EmptyString) "/tmp/d" fs_tmp fs_tmp
           EmptyString).
  - lia.
  - vm_compute. reflexivity.
Defined.

(** ** Extensions *)

Section Extensions.

Lemma split_on_keeps (d c : ascii) (s : string) :
  contains_char d s = false ->
  Forall (fun piece => contains_char d piece = false) (split_on c s).
Proof.
  induction s as [|a s IH]; simpl; intros H.
  - now repeat constructor.
  - apply orb_false_iff in H. destruct H as [Ha Hs]. specialize (IH Hs).
    destruct (Ascii.eqb a c).
    + now constructor.
    + destruct (split_on c s) as [|piece pieces].
      * repeat constructor. simpl. now rewrite Ha.
      * inversion IH as [|? ? Hp Hps]; subst. constructor; [|exact Hps].
        simpl. now rewrite Ha, Hp.
Qed.

Lemma split_on_clean (c : ascii) (s : string) :
  Forall (fun piece => contains_char c piece = false) (split_on c s).
Proof.
  induction s as [|a s IH]; simpl.
  - now repeat constructor.
  - destruct (Ascii.eqb a c) eqn:E.
    + now constructor.
    + destruct (split_on c s) as [|piece pieces].
      * repeat constructor. simpl. now rewrite E.
      * inversion IH as [|? ? Hp Hps]; subst. constructor; [|exact Hps].
        simpl. now rewrite E, Hp.
Qed.

Lemma Forall_last (P : string -> Prop) (l : list string) (d : string) :
  Forall P l -> P d -> P (last l d).
Proof.
  induction l as [|x l IH]; intros Hl Hd; [exact Hd|].
  inversion Hl as [|? ? Hx Hxs]; subst.
  destruct l as [|y l]; [exact Hx|]. now apply IH.
Qed.

End Extensions.

(** X17.  The extension [getFileExtension] returns holds neither a dot nor a
    slash, whatever the path. *)
Theorem extension_has_no_separator :
  forall path extension : string,
    size path < npos ->
    getFileExtension path = Ok extension ->
    contains_char "." extension = false /\ contains_char "/" extension = false.
Proof.
  intros path extension Hsize H.
  rewrite getFileExtension_spec in H by exact Hsize. injection H as <-.
  unfold spec_extension, last_segment. cbv zeta.
  set (segment := last (split_on "/" path) EmptyString).
  assert (Hseg : contains_char "/" segment = false)
    by (apply (Forall_last (fun p => contains_char "/" p = false));
        [apply split_on_clean | reflexivity]).
  destruct (contains_char "." segment); [|now split].
  split.
  - apply (Forall_last (fun p => contains_char "." p = false));
      [apply split_on_clean | reflexivity].
  - apply (Forall_last (fun p => contains_char "/" p = false));
      [now apply split_on_keeps | reflexivity].
Qed.

(** [extension_has_no_separator] on a path with dots in its directories. *)
Lemma extension_has_no_separator_witness :
  getFileExtension "../site.v2/archive.tar.gz" = Ok "gz"
  /\ contains_char "." "gz" = false /\ contains_char "/" "gz" = false.
Proof.
  split; [vm_compute; reflexivity|].
  apply (extension_has_no_separator "../site.v2/archive.tar.gz" "gz");
    vm_compute; reflexivity.
Defined.

(** [post_elsewhere_not_implemented] on a POST to [/upload]. *)
Lemma post_elsewhere_not_implemented_witness :
  handleClient 30 (request "POST /upload" "x") "/tmp/d" fs_tmp
  = Sent ("HTTP/1.1 501 Not Implemented" ++ CRLF ++ CRLF) fs_tmp.
Proof.
  refine (post_elsewhere_not_implemented 30 (request "POST /upload" "x") "/tmp/d"
            fs_tmp (request "POST /upload" "x") _ _ "upload" _ _ _).
  - unfold BUFFER_SIZE. lia.
  - vm_compute. reflexivity.
  - vm_compute. reflexivity.
  - vm_compute. reflexivity.
  - reflexivity.
Defined.

(** X15.  Store, then fetch.  When the configured directory is [d/], a
    POST to [files/<name>] that can open its destination, followed by a
    GET of [files/<name>], returns the bytes [B] that follow the first
    blank line of the POST request, as [application/octet-stream] and
    with their length. *)
Theorem round_trip_with_trailing_slash :
  forall (n1 n2 : Z) (received1 received2 d name head B : string)
         (fs : filesystem) (post get : string),
    0 <= n1 <= BUFFER_SIZE -> 0 <= n2 <= BUFFER_SIZE ->
    c_string (recv_into buffer_init received1) = Some post ->
    c_string (recv_into buffer_init received2) = Some get ->
    getMethod post = Ok "POST" -> getPath post = Ok ("files/" ++ name) ->
    first_at (CRLF ++ CRLF) post head B ->
    getMethod get = Ok "GET" -> getPath get = Ok ("files/" ++ name) ->
    can_create (mkdir fs (d ++ "/")) (destination (d ++ "/") name) = true ->
    size ((d ++ "/") ++ name) < 2 ^ 31 ->
    exists fs',
      handleClient n1 received1 (d ++ "/") fs = Sent (HTTP201 ++ CRLF) fs'
      /\ handleClient n2 received2 (d ++ "/") fs' =
           Sent (HTTP200 ++ "Content-Type: application/octet-stream" ++ CRLF
                   ++ "Content-Length: " ++ to_string (size B) ++ CRLF
                   ++ CRLF ++ B) fs'.
Proof.
  intros n1 n2 received1 received2 d name head B fs post get
         Hn1 Hn2 Hpost Hget Hm1 Hp1 Hblank Hm2 Hp2 Hopen Hsize.
  pose proof (request_size _ _ Hpost) as Hlen.
  assert (Hbody : parseFromThisToEnd post (CRLF ++ CRLF) = Ok B).
  { pose proof (first_at_found _ _ _ _ Hblank) as H1.
    destruct Hblank as [Hs _]. rewrite Hs in *.
    apply parseFromThisToEnd_at;
      [exact H1 | vm_compute; reflexivity
       | unfold BUFFER_SIZE, SIZE_MODULUS in *; lia]. }
  apply (round_trip_of_stored_body n1 n2 received1 received2 d name B fs post get);
    assumption.
Qed.

(** [round_trip_with_trailing_slash] on [hello] stored as [test.txt] under
    [/tmp/d/]. *)
Lemma round_trip_with_trailing_slash_witness :
  exists fs',
    handleClient 39 (request "POST /files/test.txt" "hello") ("/tmp/d" ++ "/") fs_tmp
    = Sent (HTTP201 ++ CRLF) fs'
    /\ handleClient 38 (request "GET /files/test.txt" EmptyString) ("/tmp/d" ++ "/") fs'
       = Sent (HTTP200 ++ "Content-Type: application/octet-stream" ++ CRLF
                 ++ "Content-Length: " ++ to_string (size "hello") ++ CRLF
                 ++ CRLF ++ "hello") fs'.
Proof.
  apply (round_trip_with_trailing_slash 39 38
           (request "POST /files/test.txt" "hello")
           (request "GET /files/test.txt" EmptyString)
           "/tmp/d" "test.txt" "POST /files/test.txt HTTP/1.1" "hello" fs_tmp
           (request "POST /files/test.txt" "hello")
           (request "GET /files/test.txt" EmptyString)).
  - unfold BUFFER_SIZE. lia.
  - unfold BUFFER_SIZE. lia.
  - vm_compute. reflexivity.
  - vm_compute. reflexivity.
  - vm_compute. reflexivity.
  - vm_compute. reflexivity.
  - apply (found_first_at (CRLF ++ CRLF) "POST /files/test.txt HTTP/1.1" "hello").
    vm_compute. reflexivity.
  - vm_compute. reflexivity.
  - vm_compute. reflexivity.
  - vm_compute. reflexivity.
  - vm_compute. reflexivity.
Defined.
